(** * A location-logging HTTP service: backend/main.go

    The backend keeps one table of GPS readings behind two HTTP routes.
    This file embeds [main.go] in Rocq: the [Location] struct, the
    [enableCORS] middleware and the two handlers are transcribed from the
    source; the pieces of the Go ecosystem they call (encoding/json, the
    net/http response writer, GORM over SQLite) are given executable
    models of the behaviour the handlers rely on. *)

From Stdlib Require Import ZArith List String Ascii Bool Lia PrimFloat Uint63.
From Stdlib Require Import DecimalString.
From stdpp Require Import base option strings gmap.
Import ListNotations.
Open Scope string_scope.
Open Scope list_scope.
Open Scope Z_scope.

(** ** Go values *)

(** [float64].  Coordinates are only moved around, never computed with. *)
Definition float64 : Set := PrimFloat.float.

(** [time.Time], as an instant; [0] is the zero value [time.Time{}]. *)
Definition Time := Z.

(** The [error] interface, by its [Error()] text. *)
Definition error := string.

(** [uint] on a 64-bit platform is a [Z] below [2^64]; SQLite's rowid is a
    signed 64-bit integer. *)
Definition maxUint : Z := 2 ^ 64 - 1.
Definition maxRowid : Z := 2 ^ 63 - 1.

(** main.go, lines 17-22. *)
Record Location := mkLocation {
  ID : Z;
  Latitude : float64;
  Longitude : float64;
  Timestamp : Time
}.

(** [var newLocation Location]: every field holds its zero value. *)
Definition zeroLocation : Location := mkLocation 0 0%float 0%float 0.

(** ** encoding/json *)

#[local] Set Warnings "-register-all,-inexact-float".

(** A JSON text once the scanner has read it.  A number keeps its literal:
    the decoder hands it to strconv according to the target field. *)
Inductive json :=
| JNull
| JBool (b : bool)
| JNumber (lit : string)
| JString (s : string)
| JArray (elems : list json)
| JObject (members : list (string * json)).

(** What [json.NewDecoder(r.Body)] finds in a request body: either no JSON
    value can be read (syntax error, empty body, ...) and the decoder
    reports [err], or the first value of the stream is [v]. *)
Inductive Body :=
| Malformed (err : error)
| Parsed (v : json).

(** [strconv.ParseUint(s, 10, 64)]: decimal digits only, below [2^64]. *)
Definition digit_of (c : ascii) : option Z :=
  let n := Z.of_N (N_of_ascii c) in
  if (48 <=? n) && (n <=? 57) then Some (n - 48) else None.

Fixpoint digits_value (acc : Z) (s : string) : option Z :=
  match s with
  | EmptyString => Some acc
  | String c s' =>
      match digit_of c with
      | Some d => digits_value (10 * acc + d) s'
      | None => None
      end
  end.

Definition ParseUint (s : string) : option Z :=
  match s with
  | EmptyString => None
  | _ =>
      match digits_value 0 s with
      | Some n => if n <=? maxUint then Some n else None
      | None => None
      end
  end.

(** The struct fields a JSON object member can name.  [Location] carries no
    [json] tags, so each field is known by its Go name. *)
Inductive Field := FID | FLatitude | FLongitude | FTimestamp.

Definition field_name (f : Field) : string :=
  match f with
  | FID => "ID"
  | FLatitude => "Latitude"
  | FLongitude => "Longitude"
  | FTimestamp => "Timestamp"
  end.

Definition field_type (f : Field) : string :=
  match f with
  | FID => "uint"
  | FLatitude | FLongitude => "float64"
  | FTimestamp => "time.Time"
  end.

Definition fields : list Field := [FID; FLatitude; FLongitude; FTimestamp].

(** [foldName]: the key under which names are compared when no field
    matches exactly.  ASCII letters are upper-cased; the two non-ASCII
    runes whose case orbit reaches ASCII, U+017F (long s, bytes C5 BF) and
    U+212A (Kelvin sign, bytes E2 84 AA), fold to [S] and [K]. *)
Definition upper (c : ascii) : ascii :=
  let n := N_of_ascii c in
  if ((97 <=? n) && (n <=? 122))%N then ascii_of_N (n - 32) else c.

Fixpoint foldName (s : string) : string :=
  match s with
  | EmptyString => EmptyString
  | String c s' =>
      match N_of_ascii c, s' with
      | 197%N, String d s'' =>
          if (N_of_ascii d =? 191)%N then String "S" (foldName s'')
          else String c (foldName s')
      | 226%N, String d (String e s'') =>
          if ((N_of_ascii d =? 132) && (N_of_ascii e =? 170))%N
          then String "K" (foldName s'')
          else String c (foldName s')
      | _, _ => String (upper c) (foldName s')
      end
  end.

(** The decoder's field lookup: an exact match first, else the first field
    with the same folded name; a key that names no field is skipped. *)
Definition lookup_field (key : string) : option Field :=
  match List.find (fun f => String.eqb (field_name f) key) fields with
  | Some f => Some f
  | None =>
      List.find (fun f => String.eqb (foldName (field_name f)) (foldName key))
                fields
  end.

(** How [UnmarshalTypeError] names the offending JSON value. *)
Definition describe (v : json) : string :=
  match v with
  | JNull => "null"
  | JBool _ => "bool"
  | JNumber lit => "number " +:+ lit
  | JString _ => "string"
  | JArray _ => "array"
  | JObject _ => "object"
  end.

Definition UnmarshalTypeError (value : string) (f : Field) : error :=
  "json: cannot unmarshal " +:+ value +:+ " into Go struct field Location."
    +:+ field_name f +:+ " of type " +:+ field_type f.

Definition UnmarshalTypeError_top (value : string) : error :=
  "json: cannot unmarshal " +:+ value +:+ " into Go value of type main.Location".

(** ** net/http: the response writer *)

(** What a handler writes to the response body.  The bytes produced by
    [json.Encoder.Encode] are kept as the value that was encoded. *)
Inductive Payload :=
| Text (s : string)
| EncodeMap (m : list (string * string))
| EncodeLocation (l : Location).

(** [http.ResponseWriter]: the header map under construction, the status
    line once [WriteHeader] has run (with the headers sent along with it),
    and the body written so far. *)
Record ResponseWriter := mkWriter {
  header : gmap string (list string);
  wroteHeader : option (Z * gmap string (list string));
  written : list Payload
}.

Definition newWriter : ResponseWriter := mkWriter ∅ None [].

(** What the client receives when the handler returns: the status, the
    headers the program has set and the body.  A handler that never called
    [WriteHeader] answers 200. *)
Record Response := mkResponse {
  StatusCode : Z;
  Headers : gmap string (list string);
  ResponseBody : list Payload
}.

Definition finish (w : ResponseWriter) : Response :=
  match wroteHeader w with
  | Some (code, h) => mkResponse code h (written w)
  | None => mkResponse 200 (header w) (written w)
  end.

Definition StatusOK : Z := 200.
Definition StatusCreated : Z := 201.
Definition StatusBadRequest : Z := 400.
Definition StatusNotFound : Z := 404.
Definition StatusMethodNotAllowed : Z := 405.
Definition StatusInternalServerError : Z := 500.

(** [*http.Request], as far as the handlers read it. *)
Record Request := mkRequest {
  Method : string;
  RequestBody : Body
}.

(** ** GORM over SQLite: the [locations] table *)

Inductive Query := Insert | SelectLast.

(** The table behind the global [DB]: its rows in insertion order, the
    [sqlite_sequence] counter of the AUTOINCREMENT primary key, and the
    statements issued so far. *)
Record Database := mkDatabase {
  rows : list Location;
  sqlite_sequence : Z;
  queries : list Query
}.

(** [locations.db] right after [AutoMigrate] has created the table. *)
Definition emptyDatabase : Database := mkDatabase [] 0 [].

(** [result.Error] of a GORM call. *)
Inductive gorm_error :=
| ErrRecordNotFound
| ErrStorage (e : error).

Definition gorm_error_text (e : gorm_error) : error :=
  match e with
  | ErrRecordNotFound => "record not found"
  | ErrStorage e => e
  end.

(** The reasons SQLite has to refuse an INSERT into [locations]: no rowid
    is left above the largest one, the given key does not fit a rowid, or
    the given key is taken. *)
Inductive Refusal := RowidsExhausted | KeyOutOfRange | KeyTaken.

(** What a request meets outside the program: the clock, whether the
    backing file fails with an I/O error while the request is served, and
    the words in which the database driver reports a refusal. *)
Record Env := mkEnv {
  now : Time;
  fault : option error;
  wording : Refusal -> error
}.

(** The largest rowid in the table, [0] when it is empty. *)
Fixpoint max_id (rs : list Location) : Z :=
  match rs with
  | [] => 0
  | r :: rs' => Z.max (ID r) (max_id rs')
  end.

Definition has_id (id : Z) (rs : list Location) : bool :=
  existsb (fun r => ID r =? id) rs.

(** [ORDER BY id DESC LIMIT 1]. *)
Fixpoint last_by_id (rs : list Location) : option Location :=
  match rs with
  | [] => None
  | r :: rs' =>
      match last_by_id rs' with
      | None => Some r
      | Some m => if ID m <? ID r then Some r else Some m
      end
  end.

Definition with_ID (id : Z) (l : Location) : Location :=
  mkLocation id (Latitude l) (Longitude l) (Timestamp l).
Definition with_Latitude (x : float64) (l : Location) : Location :=
  mkLocation (ID l) x (Longitude l) (Timestamp l).
Definition with_Longitude (x : float64) (l : Location) : Location :=
  mkLocation (ID l) (Latitude l) x (Timestamp l).
Definition with_Timestamp (t : Time) (l : Location) : Location :=
  mkLocation (ID l) (Latitude l) (Longitude l) t.

(** What a REAL column gives back for the [float64] written to it.  SQLite
    writes a real that has an integer value as that integer and reads it
    back as a real, so every value returns as it was written except
    negative zero, which returns as zero.  (A NaN never reaches a column:
    no JSON number parses to one.) *)
Definition is_negative_zero (x : float64) : bool :=
  PrimFloat.Leibniz.eqb x (-0)%float.

Definition REAL (x : float64) : float64 :=
  if is_negative_zero x then 0%float else x.

(** A [Location] as the table holds it. *)
Definition stored (l : Location) : Location :=
  mkLocation (ID l) (REAL (Latitude l)) (REAL (Longitude l)) (Timestamp l).

Definition record_query (q : Query) (db : Database) : Database :=
  mkDatabase (rows db) (sqlite_sequence db) (queries db ++ [q]).

Definition insert_row (r : Location) (db : Database) : Database :=
  mkDatabase (rows db ++ [stored r]) (Z.max (sqlite_sequence db) (ID r))
    (queries db).

(** [DB.Create(&value)] on a [Location].
    - [autoCreateTime]: a zero [Timestamp] is set to the current time, any
      other value is kept.
    - A zero [ID] is left out of the INSERT and SQLite picks the rowid one
      above the largest the table has ever held (AUTOINCREMENT), failing
      once that is the largest rowid there is.
    - A non-zero [ID] is written as given; it must be free (PRIMARY KEY)
      and fit a rowid.
    - The coordinates go into REAL columns.
    A refusal is reported in the driver's words.  Returns the value as
    GORM leaves it and [result.Error]. *)
Definition DB_Create (env : Env) (value : Location) (db : Database)
  : Location * option gorm_error * Database :=
  let db := record_query Insert db in
  let value :=
    if Timestamp value =? 0 then with_Timestamp (now env) value else value in
  match fault env with
  | Some e => (value, Some (ErrStorage e), db)
  | None =>
      if ID value =? 0 then
        let top := Z.max (sqlite_sequence db) (max_id (rows db)) in
        if maxRowid <=? top
        then (value, Some (ErrStorage (wording env RowidsExhausted)), db)
        else
          let value := with_ID (top + 1) value in
          (value, None, insert_row value db)
      else if maxRowid <? ID value
      then (value, Some (ErrStorage (wording env KeyOutOfRange)), db)
      else if has_id (ID value) (rows db)
      then (value, Some (ErrStorage (wording env KeyTaken)), db)
      else (value, None, insert_row value db)
  end.

(** [DB.Order("id DESC").First(&dest)]. *)
Definition DB_Order_id_DESC_First (env : Env) (dest : Location) (db : Database)
  : Location * option gorm_error * Database :=
  let db := record_query SelectLast db in
  match fault env with
  | Some e => (dest, Some (ErrStorage e), db)
  | None =>
      match last_by_id (rows db) with
      | None => (dest, Some ErrRecordNotFound, db)
      | Some r => (r, None, db)
      end
  end.

(** ** The handlers' effects *)

(** A handler runs against the response writer [w] it is given and the
    process-wide [DB]. *)
Record World := mkWorld {
  w : ResponseWriter;
  DB : Database
}.

Definition M (A : Type) : Type := World -> A * World.

#[export] Instance M_ret : MRet M := fun A a s => (a, s).

#[export] Instance M_bind : MBind M :=
  fun A B k m s => let '(a, s') := m s in k a s'.

Definition newline : string := String (ascii_of_N 10) EmptyString.

Definition update_writer (f : ResponseWriter -> ResponseWriter) : M unit :=
  fun s => (tt, mkWorld (f (w s)) (DB s)).

(** [w.Header().Set(key, value)] and [w.Header().Del(key)]. *)
Definition Header_Set (key value : string) : M unit :=
  update_writer (fun w =>
    mkWriter (<[key := [value]]> (header w)) (wroteHeader w) (written w)).

Definition Header_Del (key : string) : M unit :=
  update_writer (fun w =>
    mkWriter (delete key (header w)) (wroteHeader w) (written w)).

(** [w.WriteHeader(code)]: the first call fixes the status and sends the
    headers as they stand; later calls are ignored. *)
Definition WriteHeader (code : Z) : M unit :=
  update_writer (fun w =>
    match wroteHeader w with
    | Some _ => w
    | None => mkWriter (header w) (Some (code, header w)) (written w)
    end).

(** [w.Write]: sends status 200 first if none was sent. *)
Definition Write (p : Payload) : M unit :=
  (WriteHeader StatusOK ;;
   update_writer (fun w =>
     mkWriter (header w) (wroteHeader w) (written w ++ [p]))).

(** [http.Error(w, msg, code)]. *)
Definition http_Error (msg : string) (code : Z) : M unit :=
  (Header_Del "Content-Length" ;;
   Header_Set "Content-Type" "text/plain; charset=utf-8" ;;
   Header_Set "X-Content-Type-Options" "nosniff" ;;
   WriteHeader code ;;
   Write (Text (msg +:+ newline))).

(** [json.NewEncoder(w).Encode(v)], at the two types main.go encodes. *)
Definition Encode_map (m : list (string * string)) : M unit :=
  Write (EncodeMap m).

Definition Encode_Location (l : Location) : M unit :=
  Write (EncodeLocation l).

(** The two GORM calls, run on the global [DB]. *)
Definition Create (env : Env) (value : Location)
  : M (Location * option gorm_error) :=
  fun s =>
    let '(value, err, db) := DB_Create env value (DB s) in
    ((value, err), mkWorld (w s) db).

Definition Order_id_DESC_First (env : Env) (dest : Location)
  : M (Location * option gorm_error) :=
  fun s =>
    let '(dest, err, db) := DB_Order_id_DESC_First env dest (DB s) in
    ((dest, err), mkWorld (w s) db).

Definition Handler : Type := Env -> Request -> M unit.

(** The two registered paths of [main]. *)
Inductive Route := ApiLocation | ApiLocationLast.

(** The two library parsers the decoder relies on, kept as an interface:
    [strconv.ParseFloat(lit, 64)], with [None] when the literal is out of
    the range of [float64], and the RFC 3339 parser behind
    [time.Time.UnmarshalJSON], applied to the content of a JSON string. *)
Class Parsers := {
  ParseFloat : string -> option float64;
  ParseRFC3339 : string -> error + Time
}.

Section Backend.

Context {parsers : Parsers}.

(** [time.Time]'s [UnmarshalJSON]: [null] is a no-op, a string is parsed,
    anything else is refused. *)
Definition Time_UnmarshalJSON (v : json) (t : Time) : error + Time :=
  match v with
  | JNull => inr t
  | JString s => ParseRFC3339 s
  | _ => inl "Time.UnmarshalJSON: input is not a JSON string"
  end.

(** The decoder while it fills [target]: a type mismatch is remembered (the
    first one wins) and decoding goes on. *)
Record decodeState := mkDecodeState {
  target : Location;
  savedError : option error
}.

Definition saveError (e : error) (d : decodeState) : decodeState :=
  match savedError d with
  | Some _ => d
  | None => mkDecodeState (target d) (Some e)
  end.

Definition assign (f : Location -> Location) (d : decodeState) : decodeState :=
  mkDecodeState (f (target d)) (savedError d).

(** Storing one member's value into the field it names.  [null] leaves a
    field as it is.  An error of [UnmarshalJSON] stops the decoder
    ([inl]). *)
Definition store_field (f : Field) (v : json) (d : decodeState)
  : error + decodeState :=
  match f with
  | FTimestamp =>
      match Time_UnmarshalJSON v (Timestamp (target d)) with
      | inl e => inl e
      | inr t => inr (assign (with_Timestamp t) d)
      end
  | FID =>
      match v with
      | JNull => inr d
      | JNumber lit =>
          match ParseUint lit with
          | Some n => inr (assign (with_ID n) d)
          | None => inr (saveError (UnmarshalTypeError (describe v) f) d)
          end
      | _ => inr (saveError (UnmarshalTypeError (describe v) f) d)
      end
  | FLatitude | FLongitude =>
      match v with
      | JNull => inr d
      | JNumber lit =>
          match ParseFloat lit with
          | Some x =>
              inr (assign (match f with
                           | FLatitude => with_Latitude x
                           | _ => with_Longitude x
                           end) d)
          | None => inr (saveError (UnmarshalTypeError (describe v) f) d)
          end
      | _ => inr (saveError (UnmarshalTypeError (describe v) f) d)
      end
  end.

(** The members of an object, in the order they appear; a later member
    overwrites an earlier one of the same field. *)
Fixpoint object (members : list (string * json)) (d : decodeState)
  : error + decodeState :=
  match members with
  | [] => inr d
  | (key, v) :: rest =>
      match lookup_field key with
      | None => object rest d
      | Some f =>
          match store_field f v d with
          | inl e => inl e
          | inr d' => object rest d'
          end
      end
  end.

(** [json.NewDecoder(r.Body).Decode(&loc)]: the error, or the struct as the
    decoder leaves it ([handlePostLocation] reads it only when [err] is
    nil). *)
Definition Decode (body : Body) (loc : Location) : error + Location :=
  match body with
  | Malformed err => inl err
  | Parsed JNull => inr loc
  | Parsed (JObject members) =>
      match object members (mkDecodeState loc None) with
      | inl e => inl e
      | inr d =>
          match savedError d with
          | Some e => inl e
          | None => inr (target d)
          end
      end
  | Parsed (JBool _) => inl (UnmarshalTypeError_top "bool")
  | Parsed (JNumber _) => inl (UnmarshalTypeError_top "number")
  | Parsed (JString _) => inl (UnmarshalTypeError_top "string")
  | Parsed (JArray _) => inl (UnmarshalTypeError_top "array")
  end.

(** A member value the decoder stores into field [f] without complaint:
    [null], or a value of the field's type. *)
Definition fits (f : Field) (v : json) : bool :=
  match v with
  | JNull => true
  | JNumber lit =>
      match f with
      | FID => bool_decide (is_Some (ParseUint lit))
      | FLatitude | FLongitude => bool_decide (is_Some (ParseFloat lit))
      | FTimestamp => false
      end
  | JString s =>
      match f with
      | FTimestamp => match ParseRFC3339 s with inr _ => true | inl _ => false end
      | _ => false
      end
  | _ => false
  end.

(** Every member that names a field of [Location] holds a fitting value;
    members that name no field are unconstrained. *)
Definition well_typed (members : list (string * json)) : bool :=
  forallb (fun m => match lookup_field (fst m) with
                    | Some f => fits f (snd m)
                    | None => true
                    end) members.

(** main.go, lines 55-71. *)
Definition enableCORS (next : Handler) : Handler :=
  fun env r =>
    Header_Set "Access-Control-Allow-Origin" "*" ;;
    Header_Set "Access-Control-Allow-Methods" "POST, GET, OPTIONS" ;;
    Header_Set "Access-Control-Allow-Headers" "Content-Type" ;;
    if String.eqb (Method r) "OPTIONS" then
      WriteHeader StatusOK
    else
      next env r.

(** main.go, lines 75-100.  The closing [log.Printf] writes to the
    process log only and is left out. *)
Definition handlePostLocation : Handler :=
  fun env r =>
    if negb (String.eqb (Method r) "POST") then
      http_Error "Method not allowed" StatusMethodNotAllowed
    else
      match Decode (RequestBody r) zeroLocation with
      | inl err =>
          http_Error ("Invalid request payload: " +:+ err) StatusBadRequest
      | inr newLocation =>
          '(newLocation, result_Error) ← Create env newLocation;
          match result_Error with
          | Some e =>
              http_Error ("Failed to save location: " +:+ gorm_error_text e)
                         StatusInternalServerError
          | None =>
              WriteHeader StatusCreated ;;
              Encode_map [("message", "Location saved successfully")]
          end
      end.

(** main.go, lines 104-127. *)
Definition handleGetLastLocation : Handler :=
  fun env r =>
    if negb (String.eqb (Method r) "GET") then
      http_Error "Method not allowed" StatusMethodNotAllowed
    else
      '(lastLocation, result_Error) ← Order_id_DESC_First env zeroLocation;
      match result_Error with
      | Some ErrRecordNotFound =>
          http_Error "No locations found" StatusNotFound
      | Some e =>
          http_Error ("Failed to retrieve last location: " +:+ gorm_error_text e)
                     StatusInternalServerError
      | None =>
          Header_Set "Content-Type" "application/json" ;;
          Encode_Location lastLocation
      end.

(** main.go, lines 43-45: the handler registered for each path. *)
Definition mux (route : Route) : Handler :=
  match route with
  | ApiLocation => enableCORS handlePostLocation
  | ApiLocationLast => enableCORS handleGetLastLocation
  end.

(** Serving one request: the handler gets a fresh response writer and the
    database as the previous requests left it. *)
Definition serve (env : Env) (route : Route) (r : Request) (db : Database)
  : Response * Database :=
  let '(_, s) := mux route env r (mkWorld newWriter db) in
  (finish (w s), DB s).

(** Requests served one after the other. *)
Fixpoint serve_all (reqs : list (Env * Route * Request)) (db : Database)
  : list Response * Database :=
  match reqs with
  | [] => ([], db)
  | (env, route, r) :: rest =>
      let '(resp, db') := serve env route r db in
      let '(resps, db'') := serve_all rest db' in
      (resp :: resps, db'')
  end.

End Backend.

(** ** The responses the handlers can produce *)

(** The headers [enableCORS] sets before anything else happens. *)
Definition cors_header : gmap string (list string) :=
  <["Access-Control-Allow-Headers" := ["Content-Type"]]>
    (<["Access-Control-Allow-Methods" := ["POST, GET, OPTIONS"]]>
       (<["Access-Control-Allow-Origin" := ["*"]]> ∅)).

(** The answer to a preflight request. *)
Definition preflight_response : Response :=
  mkResponse StatusOK cors_header [].

(** What [http.Error] sends from inside a wrapped handler. *)
Definition error_response (code : Z) (msg : string) : Response :=
  mkResponse code
    (<["X-Content-Type-Options" := ["nosniff"]]>
       (<["Content-Type" := ["text/plain; charset=utf-8"]]>
          (delete "Content-Length" cors_header)))
    [Text (msg +:+ newline)].

(** The acknowledgment of a saved location. *)
Definition created_response : Response :=
  mkResponse StatusCreated cors_header
    [EncodeMap [("message", "Location saved successfully")]].

(** A location sent back as JSON. *)
Definition location_response (l : Location) : Response :=
  mkResponse StatusOK (<["Content-Type" := ["application/json"]]> cors_header)
    [EncodeLocation l].

(** The method each route accepts. *)
Definition allowed_method (route : Route) : string :=
  match route with
  | ApiLocation => "POST"
  | ApiLocationLast => "GET"
  end.

(** The request the client sends for a reading: [JSON.stringify] of
    [{Latitude, Longitude}], numbers as their literals. *)
Definition post_pair (lat lon : string) : Request :=
  mkRequest "POST"
    (Parsed (JObject [("Latitude", JNumber lat); ("Longitude", JNumber lon)])).

Definition post_object (members : list (string * json)) : Request :=
  mkRequest "POST" (Parsed (JObject members)).

Definition get_last : Request := mkRequest "GET" (Malformed "EOF").

#[export] Instance Field_eq_dec : EqDecision Field.
Proof. solve_decision. Defined.

(** A JSON object has no member that the decoder stores into field [f]. *)
Definition absent (f : Field) (members : list (string * json)) : bool :=
  forallb (fun m => negb (bool_decide (lookup_field (fst m) = Some f))) members.

(** A response carries the three cross-origin headers. *)
Definition carries_cors (resp : Response) : Prop :=
  Headers resp !! "Access-Control-Allow-Origin" = Some ["*"] /\
  Headers resp !! "Access-Control-Allow-Methods" = Some ["POST, GET, OPTIONS"] /\
  Headers resp !! "Access-Control-Allow-Headers" = Some ["Content-Type"].

(** The primary key: no two rows share an id. *)
Definition unique_ids (db : Database) : Prop := NoDup (map ID (rows db)).

Create HintDb cors.

(** ** Stand-ins for the two parsers, for running the model *)

(** [strconv.ParseFloat] on the literals the examples post: negative
    zero, two decimal fractions and the small non-negative integers. *)
Definition sampleParseFloat (lit : string) : option float64 :=
  if String.eqb lit "-0.0" then Some (-0)%float
  else if String.eqb lit "13.7563" then Some 13.7563%float
  else if String.eqb lit "100.5018" then Some 100.5018%float
  else
    match ParseUint lit with
    | Some n =>
        if n <? 2 ^ 53 then Some (PrimFloat.of_uint63 (Uint63.of_Z n)) else None
    | None => None
    end.

(** The RFC 3339 parser on two instants, in seconds after the zero time. *)
Definition sampleParseRFC3339 (s : string) : error + Time :=
  if String.eqb s "0001-01-01T00:00:00Z" then inr 0
  else if String.eqb s "2024-01-01T00:00:00Z" then inr 63839664000
  else inl ("parsing time " +:+ s).

Definition sample : Parsers := Build_Parsers sampleParseFloat sampleParseRFC3339.

(** A wording of the three refusals, for running the model. *)
Definition sampleWording (r : Refusal) : error :=
  match r with
  | RowidsExhausted => "database or disk is full"
  | KeyOutOfRange => "integer out of range"
  | KeyTaken => "UNIQUE constraint failed: locations.id"
  end.

(** A request served at second 63900000000 with the backing file in
    order. *)
Definition calm : Env := mkEnv 63900000000 None sampleWording.

(** The reading of the specification's example scenario. *)
Definition bangkok : Request := post_pair "13.7563" "100.5018".

(** Two creates that name their own key, then a fetch. *)
Definition backdated : list (Env * Route * Request) :=
  [(calm, ApiLocation,
    post_object [("ID", JNumber "10");
                 ("Latitude", JNumber "1"); ("Longitude", JNumber "1")]);
   (calm, ApiLocation,
    post_object [("ID", JNumber "5");
                 ("Latitude", JNumber "2"); ("Longitude", JNumber "2")]);
   (calm, ApiLocationLast, get_last)].

(** ** Further notions about the table and the decoder *)

(** The rowid AUTOINCREMENT starts from: the largest the table has held. *)
Definition largest_rowid (db : Database) : Z :=
  Z.max (sqlite_sequence db) (max_id (rows db)).

(** A member whose name the decoder matches to a field of [Location]. *)
Definition known_member (m : string * json) : bool :=
  bool_decide (is_Some (lookup_field (fst m))).

(** Readings posted one after the other, each in its own environment. *)
Definition pair_posts (readings : list (Env * string * string))
  : list (Env * Route * Request) :=
  map (fun '(env, lat, lon) => (env, ApiLocation, post_pair lat lon)) readings.

(** ** The client: frontend/src/App.tsx *)

(** What the JavaScript runtime contributes: [Number.prototype.toFixed(6)];
    [JSON.stringify] of a number (its literal, or [null] for NaN and the
    infinities); the text of an encoded payload as [response.text()]
    returns it; and the message of the error [response.json()] throws on
    a body that is not JSON. *)
Class Browser := {
  toFixed6 : float64 -> string;
  JSON_number : float64 -> json;
  payload_text : Payload -> string;
  json_error : list Payload -> string
}.

(** The outcome of [fetch]: the promise rejects (no response at all), or
    resolves with the server's response. *)
Inductive Fetched :=
| Rejected (message : string)
| Resolved (response : Response).

(** The network between the page and the server, with the server's table
    behind it. *)
Class Network := {
  fetch : Env -> Route -> Request -> Database -> Fetched * Database
}.

(** A network that delivers every request to the backend and every
    response back to the page. *)
Definition online {parsers : Parsers} : Network :=
  Build_Network (fun env route r db =>
    let '(response, db') := serve env route r db in
    (Resolved response, db')).

(** How the geolocation API answers [getCurrentPosition]: the API is
    missing, the success callback runs with the coordinates, or the error
    callback runs with a [GeolocationPositionError] code (1 permission
    denied, 2 position unavailable, 3 timeout). *)
Inductive Geolocation :=
| Unsupported
| Position (latitude longitude : float64)
| PositionError (code : Z).

Module App.

(** App.tsx, lines 54-58: the component's three pieces of state.  The
    data of [lastSavedLocation] is kept as the payload it was parsed
    from. *)
Record State := mkState {
  currentLocation : string;
  lastSavedLocation : option Payload;
  error : option string
}.

Definition initial : State := mkState "No location yet." None None.

Definition setCurrentLocation (v : string) (st : State) : State :=
  mkState v (lastSavedLocation st) (error st).
Definition setLastSavedLocation (v : option Payload) (st : State) : State :=
  mkState (currentLocation st) v (error st).
Definition setError (v : option string) (st : State) : State :=
  mkState (currentLocation st) (lastSavedLocation st) v.

(** [response.ok]. *)
Definition ok (response : Response) : bool :=
  (200 <=? StatusCode response) && (StatusCode response <=? 299).

(** A number inside a template literal. *)
Definition status_text (code : Z) : string :=
  NilZero.string_of_int (Z.to_int code).

Section Component.

Context {browser : Browser} {network : Network}.

(** [response.text()]. *)
Definition text (response : Response) : string :=
  fold_right (fun p acc =>
                match p with
                | Text s => s +:+ acc
                | _ => payload_text p +:+ acc
                end) "" (ResponseBody response).

(** [response.json()]: the value the server encoded, or the error thrown
    when the body is not one encoded value. *)
Definition json_of (response : Response) : string + Payload :=
  match ResponseBody response with
  | [EncodeMap m] => inr (EncodeMap m)
  | [EncodeLocation l] => inr (EncodeLocation l)
  | body => inl (json_error body)
  end.

(** The message of the [Error] both functions throw on a failed request. *)
Definition http_error (response : Response) : string :=
  "HTTP error! Status: " +:+ status_text (StatusCode response) +:+ " - "
    +:+ text response.

(** App.tsx, lines 132-150. *)
Definition fetchLastSavedLocation (env : Env) (st : State) (db : Database)
  : State * Database :=
  match fetch env ApiLocationLast get_last db with
  | (Rejected message, db) =>
      (setError (Some ("Failed to fetch last location from backend: "
                         +:+ message)) st, db)
  | (Resolved response, db) =>
      if negb (ok response) then
        if StatusCode response =? 404 then
          (setLastSavedLocation None st, db)
        else
          (setError (Some ("Failed to fetch last location from backend: "
                             +:+ http_error response)) st, db)
      else
        match json_of response with
        | inl message =>
            (setError (Some ("Failed to fetch last location from backend: "
                               +:+ message)) st, db)
        | inr data => (setLastSavedLocation (Some data) st, db)
        end
  end.

(** App.tsx, lines 103-129.  The POST is served in [env], the refresh that
    follows a success in [env'].  [console.log] and [alert] are left
    out. *)
Definition sendLocationToBackend (env env' : Env)
    (latitude longitude : float64) (st : State) (db : Database)
  : State * Database :=
  let body :=
    Parsed (JObject [("Latitude", JSON_number latitude);
                     ("Longitude", JSON_number longitude)]) in
  match fetch env ApiLocation (mkRequest "POST" body) db with
  | (Rejected message, db) =>
      (setError (Some ("Failed to send location to backend: " +:+ message)) st,
       db)
  | (Resolved response, db) =>
      if negb (ok response) then
        (setError (Some ("Failed to send location to backend: "
                           +:+ http_error response)) st, db)
      else
        match json_of response with
        | inl message =>
            (setError (Some ("Failed to send location to backend: "
                               +:+ message)) st, db)
        | inr data => fetchLastSavedLocation env' st db
        end
  end.

(** App.tsx, lines 74-91: the message for a geolocation error code. *)
Definition geoErrorMessage (code : Z) : string :=
  "Geolocation error: " +:+
  (if code =? 1 then
     "User denied the request for Geolocation. Please allow location access in your browser settings."
   else if code =? 2 then "Location information is unavailable."
   else if code =? 3 then "The request to get user location timed out."
   else if code =? 0 then "An unknown error occurred."
   else "An unexpected error occurred.").

(** App.tsx, lines 63-100. *)
Definition getGeoLocation (geo : Geolocation) (env env' : Env)
    (st : State) (db : Database) : State * Database :=
  let st := setError None st in
  match geo with
  | Unsupported =>
      (setError (Some "Geolocation is not supported by this browser. Please use a modern browser.") st,
       db)
  | Position lat lon =>
      let st :=
        setCurrentLocation
          ("Lat: " +:+ toFixed6 lat +:+ ", Lon: " +:+ toFixed6 lon) st in
      sendLocationToBackend env env' lat lon st db
  | PositionError code =>
      (setCurrentLocation "Error getting location."
         (setError (Some (geoErrorMessage code)) st), db)
  end.

(** App.tsx, lines 153-155: the effect that runs once when the component
    mounts. *)
Definition mount (env : Env) (db : Database) : State * Database :=
  fetchLastSavedLocation env initial db.

End Component.

End App.

(** A stand-in for the JavaScript runtime on the two coordinates of the
    example scenario. *)
Definition sampleBrowser : Browser :=
  Build_Browser
    (fun x => if PrimFloat.Leibniz.eqb x 13.7563%float then "13.756300"
              else if PrimFloat.Leibniz.eqb x 100.5018%float then "100.501800"
              else "0.000000")
    (fun x => if PrimFloat.Leibniz.eqb x 13.7563%float then JNumber "13.7563"
              else if PrimFloat.Leibniz.eqb x 100.5018%float
                   then JNumber "100.5018"
              else JNull)
    (fun _ => "{}")
    (fun _ => "Unexpected end of JSON input").

(** A request served while the backing file cannot be read or written. *)
Definition stormy : Env :=
  mkEnv 63900000000 (Some "disk I/O error") sampleWording.

(** ** The table *)

Lemma max_id_bound rs r : In r rs -> ID r <= max_id rs.
Proof.
  induction rs as [|r' rs IH]; cbn; [tauto|].
  intros [->|Hin]; [lia|]. specialize (IH Hin). lia.
Qed.

Lemma has_id_In id rs : has_id id rs = true <-> In id (map ID rs).
Proof.
  unfold has_id. rewrite existsb_exists, in_map_iff. split.
  - intros (r & Hin & Heq). exists r. split; [lia|assumption].
  - intros (r & Heq & Hin). exists r. split; [assumption|lia].
Qed.

Lemma last_by_id_None rs : last_by_id rs = None <-> rs = [].
Proof.
  destruct rs as [|r rs]; cbn; [tauto|].
  split; [|discriminate].
  destruct (last_by_id rs) as [m|]; [|discriminate].
  destruct (ID m <? ID r); discriminate.
Qed.

(** [ORDER BY id DESC LIMIT 1] returns a row of the table, and no row has a
    greater id. *)
Lemma last_by_id_Some rs m :
  last_by_id rs = Some m -> In m rs /\ forall r, In r rs -> ID r <= ID m.
Proof.
  revert m. induction rs as [|r rs IH]; cbn; [discriminate|].
  intros m. destruct (last_by_id rs) as [m'|] eqn:E.
  - destruct (IH m' eq_refl) as [Hin Hmax].
    destruct (ID m' <? ID r) eqn:C; intros [= <-].
    + apply Z.ltb_lt in C. split; [now left|].
      intros r' [->|Hr']; [lia|]. specialize (Hmax r' Hr'). lia.
    + apply Z.ltb_ge in C. split; [now right|].
      intros r' [->|Hr']; [lia|]. now apply Hmax.
  - intros [= <-]. apply last_by_id_None in E. subst rs.
    split; [now left|]. intros r' [->|[]]. lia.
Qed.

(** A row appended with an id above all others is the one returned. *)
Lemma last_by_id_app rs v :
  max_id rs < ID v -> last_by_id (rs ++ [v]) = Some v.
Proof.
  induction rs as [|r rs IH]; cbn; [reflexivity|].
  intros Hlt. rewrite IH by lia.
  destruct (ID v <? ID r) eqn:C; [|reflexivity].
  apply Z.ltb_lt in C. lia.
Qed.

(** A successful [Create] appends exactly the value it returns, as the
    table holds it; the value is as decoded but for the key and the time
    GORM fills in. *)
Lemma DB_Create_ok env v db v' db' :
  DB_Create env v db = (v', None, db') ->
  rows db' = rows db ++ [stored v'] /\
  queries db' = queries db ++ [Insert] /\
  Latitude v' = Latitude v /\ Longitude v' = Longitude v /\
  Timestamp v' = (if Timestamp v =? 0 then now env else Timestamp v) /\
  (if ID v =? 0 then max_id (rows db) < ID v' <= maxRowid
   else ID v' = ID v /\ ID v <= maxRowid /\ ~ In (ID v) (map ID (rows db))).
Proof.
  unfold DB_Create. destruct (fault env); [discriminate|].
  set (v0 := if Timestamp v =? 0 then _ else _).
  assert (Hv0 : ID v0 = ID v /\ Latitude v0 = Latitude v /\
                Longitude v0 = Longitude v /\
                Timestamp v0 = if Timestamp v =? 0 then now env else Timestamp v).
  { subst v0. destruct (Timestamp v =? 0); cbn; auto. }
  destruct Hv0 as (Hid & Hlat & Hlon & Hts). rewrite Hid.
  destruct (ID v =? 0) eqn:Hzero.
  - cbn [rows record_query sqlite_sequence].
    destruct (maxRowid <=? _) eqn:Hfull; [discriminate|].
    apply Z.leb_gt in Hfull. intros [= <- <-]. cbn. repeat split; auto; lia.
  - destruct (maxRowid <? ID v) eqn:Hbig; [discriminate|].
    cbn [rows record_query].
    destruct (has_id (ID v) (rows db)) eqn:Hdup; [discriminate|].
    apply Z.ltb_ge in Hbig. intros [= <- <-]. cbn. repeat split; auto.
    rewrite <- has_id_In, Hdup. discriminate.
Qed.

(** A failed [Create] leaves the rows alone. *)
Lemma DB_Create_error env v db v' e db' :
  DB_Create env v db = (v', Some e, db') ->
  rows db' = rows db /\ sqlite_sequence db' = sqlite_sequence db.
Proof.
  unfold DB_Create. destruct (fault env); [intros [= <- <- <-]; auto|].
  set (v0 := if Timestamp v =? 0 then _ else _).
  destruct (ID v0 =? 0).
  - destruct (maxRowid <=? _); [intros [= <- <- <-]; auto|discriminate].
  - destruct (maxRowid <? ID v0); [intros [= <- <- <-]; auto|].
    destruct (has_id _ _); [intros [= <- <- <-]; auto|discriminate].
Qed.

Lemma DB_First_rows env dest db :
  rows (DB_Order_id_DESC_First env dest db).2 = rows db.
Proof.
  unfold DB_Order_id_DESC_First.
  destruct (fault env); [reflexivity|].
  destruct (last_by_id _); reflexivity.
Qed.

Section Facts.

Context {parsers : Parsers}.

(** *** The decision trees of the two routes *)

Lemma serve_post env r db :
  serve env ApiLocation r db =
    if String.eqb (Method r) "OPTIONS" then (preflight_response, db)
    else if negb (String.eqb (Method r) "POST")
    then (error_response StatusMethodNotAllowed "Method not allowed", db)
    else
      match Decode (RequestBody r) zeroLocation with
      | inl err =>
          (error_response StatusBadRequest ("Invalid request payload: " +:+ err),
           db)
      | inr newLocation =>
          match DB_Create env newLocation db with
          | (_, Some e, db') =>
              (error_response StatusInternalServerError
                 ("Failed to save location: " +:+ gorm_error_text e), db')
          | (_, None, db') => (created_response, db')
          end
      end.
Proof.
  unfold serve, mux, enableCORS, handlePostLocation.
  unfold mbind, M_bind; cbn.
  destruct (String.eqb (Method r) "OPTIONS"); [reflexivity|].
  destruct (String.eqb (Method r) "POST"); cbn; [|reflexivity].
  destruct (Decode _ _) as [err|loc]; [reflexivity|].
  unfold Create; cbn.
  destruct (DB_Create env loc db) as [[v [e|]] db']; reflexivity.
Qed.

Lemma serve_get env r db :
  serve env ApiLocationLast r db =
    if String.eqb (Method r) "OPTIONS" then (preflight_response, db)
    else if negb (String.eqb (Method r) "GET")
    then (error_response StatusMethodNotAllowed "Method not allowed", db)
    else
      match DB_Order_id_DESC_First env zeroLocation db with
      | (_, Some ErrRecordNotFound, db') =>
          (error_response StatusNotFound "No locations found", db')
      | (_, Some e, db') =>
          (error_response StatusInternalServerError
             ("Failed to retrieve last location: " +:+ gorm_error_text e), db')
      | (lastLocation, None, db') => (location_response lastLocation, db')
      end.
Proof.
  unfold serve, mux, enableCORS, handleGetLastLocation.
  unfold mbind, M_bind; cbn.
  destruct (String.eqb (Method r) "OPTIONS"); [reflexivity|].
  destruct (String.eqb (Method r) "GET"); cbn; [|reflexivity].
  unfold Order_id_DESC_First; cbn.
  destruct (DB_Order_id_DESC_First env zeroLocation db) as [[v [[|e]|]] db'];
    reflexivity.
Qed.

(** *** Cross-origin headers and preflight *)

Lemma cors_header_lookup :
  cors_header !! "Access-Control-Allow-Origin" = Some ["*"] /\
  cors_header !! "Access-Control-Allow-Methods" = Some ["POST, GET, OPTIONS"] /\
  cors_header !! "Access-Control-Allow-Headers" = Some ["Content-Type"].
Proof. repeat split; vm_compute; reflexivity. Qed.

Lemma carries_cors_preflight : carries_cors preflight_response.
Proof. exact cors_header_lookup. Qed.

Lemma carries_cors_error code msg : carries_cors (error_response code msg).
Proof. repeat split; vm_compute; reflexivity. Qed.

Lemma carries_cors_created : carries_cors created_response.
Proof. exact cors_header_lookup. Qed.

Lemma carries_cors_location l : carries_cors (location_response l).
Proof. repeat split; vm_compute; reflexivity. Qed.

#[local] Hint Resolve carries_cors_preflight carries_cors_error
  carries_cors_created carries_cors_location : cors.

(** C8.  Every response of the two registered routes carries the three
    cross-origin headers, with the values [*], [POST, GET, OPTIONS] and
    [Content-Type]; and a request with method OPTIONS, on either route,
    with any body and against any database, is answered 200 with an empty
    body while the database, its record of issued statements included, is
    left as it was: the route's handler is never entered. *)
Theorem cors_headers_and_preflight :
  (forall env route r db, carries_cors (serve env route r db).1) /\
  (forall env route body db,
     serve env route (mkRequest "OPTIONS" body) db
     = (mkResponse 200 cors_header [], db)).
Proof.
  split.
  - intros env [] r db.
    + rewrite serve_post.
      destruct (String.eqb _ "OPTIONS"); [cbn; auto with cors|].
      destruct (negb _); [cbn; auto with cors|].
      destruct (Decode _ _); [cbn; auto with cors|].
      destruct (DB_Create _ _ _) as [[? [?|]] ?]; cbn; auto with cors.
    + rewrite serve_get.
      destruct (String.eqb _ "OPTIONS"); [cbn; auto with cors|].
      destruct (negb _); [cbn; auto with cors|].
      destruct (DB_Order_id_DESC_First _ _ _) as [[? [[|?]|]] ?];
        cbn; auto with cors.
  - intros env [] body db; [rewrite serve_post|rewrite serve_get]; reflexivity.
Qed.

(** *** Method checks *)

(** C6.  A request to [/api/location] whose method is neither POST nor
    OPTIONS, and a request to [/api/location/last] whose method is neither
    GET nor OPTIONS, is answered 405 "Method not allowed"; the database is
    returned as it was, no statement having been issued. *)
Theorem wrong_method_not_allowed env route r db :
  Method r <> "OPTIONS" ->
  Method r <> allowed_method route ->
  serve env route r db = (error_response 405 "Method not allowed", db) /\
  queries (serve env route r db).2 = queries db.
Proof.
  intros Hopt Hmeth.
  apply String.eqb_neq in Hopt. apply String.eqb_neq in Hmeth.
  destruct route; cbn in Hmeth;
    [rewrite serve_post|rewrite serve_get]; rewrite Hopt, Hmeth; auto.
Qed.

(** *** Creating a record *)

(** C5.  A body in which the decoder finds no JSON value is a decode
    failure, and a POST to [/api/location] whose body fails to decode, for
    that or any other reason, is answered 400 with the text
    "Invalid request payload: " followed by the decoder's error; the
    database is returned as it was, so no record is created. *)
Theorem undecodable_body_rejected :
  (forall err, Decode (Malformed err) zeroLocation = inl err) /\
  (forall env r db err,
     Method r = "POST" ->
     Decode (RequestBody r) zeroLocation = inl err ->
     serve env ApiLocation r db
     = (error_response 400 ("Invalid request payload: " +:+ err), db)).
Proof.
  split; [reflexivity|].
  intros env r db err Hm Hd. rewrite serve_post, Hm, Hd. reflexivity.
Qed.

(** C7.  When the body of a POST to [/api/location] decodes and the insert
    reports no error, the answer is 201 with the encoded map
    [{"message": "Location saved successfully"}] as its whole body: a
    fixed response, the same whatever id and creation time the record
    was given. *)
Theorem created_acknowledged env r db newLocation :
  Method r = "POST" ->
  Decode (RequestBody r) zeroLocation = inr newLocation ->
  (DB_Create env newLocation db).1.2 = None ->
  (serve env ApiLocation r db).1
  = mkResponse 201 cors_header
      [EncodeMap [("message", "Location saved successfully")]].
Proof.
  intros Hm Hd Hc. rewrite serve_post, Hm, Hd. cbn.
  destruct (DB_Create env newLocation db) as [[v e] db']. cbn in Hc. subst e.
  reflexivity.
Qed.

(** *** Decoding *)

Lemma Decode_post_pair lat lon x y :
  ParseFloat lat = Some x -> ParseFloat lon = Some y ->
  Decode (RequestBody (post_pair lat lon)) zeroLocation
  = inr (mkLocation 0 x y 0).
Proof.
  intros Hx Hy. cbn [post_pair RequestBody Decode object].
  change (lookup_field "Latitude") with (Some FLatitude).
  change (lookup_field "Longitude") with (Some FLongitude).
  cbn [store_field]. rewrite Hx. cbn [store_field]. rewrite Hy. reflexivity.
Qed.

(** A fitting value is stored without an error, and touches no field but
    the one it is stored into. *)
Lemma store_field_fits f v d :
  fits f v = true ->
  exists d', store_field f v d = inr d' /\
    savedError d' = savedError d /\
    (f <> FLatitude -> Latitude (target d') = Latitude (target d)) /\
    (f <> FLongitude -> Longitude (target d') = Longitude (target d)).
Proof.
  intros Hfit. destruct v; cbn in Hfit; try discriminate.
  - destruct f; cbn; eauto 6.
  - destruct f; try discriminate; apply bool_decide_eq_true in Hfit;
      destruct Hfit as [n Hn]; cbn; rewrite Hn; eexists; split; eauto;
      cbn; repeat split; congruence.
  - destruct f; try discriminate. cbn.
    destruct (ParseRFC3339 s); [discriminate|]. eauto 6.
Qed.

Lemma object_well_typed members d :
  well_typed members = true ->
  exists d', object members d = inr d' /\
    savedError d' = savedError d /\
    (absent FLatitude members = true ->
     Latitude (target d') = Latitude (target d)) /\
    (absent FLongitude members = true ->
     Longitude (target d') = Longitude (target d)).
Proof.
  revert d. induction members as [|[key v] rest IH]; intros d Hwt.
  - exists d. cbn. auto.
  - cbn in Hwt. apply andb_true_iff in Hwt as [Hv Hrest]. cbn [object absent forallb fst].
    destruct (lookup_field key) as [f|] eqn:Hf.
    + destruct (store_field_fits f v d Hv) as (d1 & -> & Hs1 & Hlat1 & Hlon1).
      destruct (IH d1 Hrest) as (d' & -> & Hs & Hlat & Hlon).
      exists d'. split; [reflexivity|]. split; [congruence|].
      split; intros Habs; apply andb_true_iff in Habs as [Hne Habs];
        apply negb_true_iff, bool_decide_eq_false in Hne.
      * rewrite Hlat, Hlat1 by (assumption || congruence). reflexivity.
      * rewrite Hlon, Hlon1 by (assumption || congruence). reflexivity.
    + destruct (IH d Hrest) as (d' & -> & Hs & Hlat & Hlon).
      exists d'. repeat split; auto;
        intros Habs; apply andb_true_iff in Habs as [_ Habs]; auto.
Qed.

(** *** Fetching the latest record *)

(** With the backing file readable, [/api/location/last] answers 404
    exactly on an empty table, and otherwise sends a row of the table
    that no other row exceeds in id. *)
Lemma get_last_max_id env db :
  fault env = None ->
  (rows db = [] ->
   (serve env ApiLocationLast get_last db).1
   = error_response 404 "No locations found") /\
  (rows db <> [] ->
   exists m, (serve env ApiLocationLast get_last db).1 = location_response m /\
             In m (rows db) /\ forall r, In r (rows db) -> ID r <= ID m).
Proof.
  intros Hf. rewrite serve_get. cbn. unfold DB_Order_id_DESC_First.
  rewrite Hf. cbn [rows record_query].
  destruct (last_by_id (rows db)) as [m|] eqn:E; split; intros Hrows.
  - rewrite Hrows in E. discriminate.
  - exists m. split; [reflexivity|]. now apply last_by_id_Some.
  - reflexivity.
  - apply last_by_id_None in E. contradiction.
Qed.

(** A create that leaves the key to the database is what the next fetch
    returns: its row gets an id above every other, and carries the decoded
    coordinates as the REAL columns hold them. *)
Lemma auto_id_is_latest env env' r db newLocation :
  Method r = "POST" ->
  Decode (RequestBody r) zeroLocation = inr newLocation ->
  ID newLocation = 0 ->
  StatusCode (serve env ApiLocation r db).1 = 201 ->
  fault env' = None ->
  exists rec,
    (serve env' ApiLocationLast get_last (serve env ApiLocation r db).2).1
    = location_response rec /\
    rows (serve env ApiLocation r db).2 = rows db ++ [rec] /\
    (forall old, In old (rows db) -> ID old < ID rec) /\
    Latitude rec = REAL (Latitude newLocation) /\
    Longitude rec = REAL (Longitude newLocation).
Proof.
  intros Hm Hd Hz Hcreated Hf. revert Hcreated.
  rewrite serve_post, Hm, Hd. cbn.
  destruct (DB_Create env newLocation db) as [[v [e|]] db'] eqn:Hc;
    [discriminate|].
  intros _. cbn.
  destruct (DB_Create_ok _ _ _ _ _ Hc) as (Hrows & _ & Hlat & Hlon & _ & Hid).
  rewrite Hz in Hid. cbn in Hid.
  exists (stored v). repeat split; try assumption.
  - rewrite serve_get. cbn. unfold DB_Order_id_DESC_First.
    rewrite Hf. cbn [rows record_query].
    rewrite Hrows, last_by_id_app by (cbn; lia). reflexivity.
  - intros old Hold. apply max_id_bound in Hold. cbn. lia.
  - cbn. now rewrite Hlat.
  - cbn. now rewrite Hlon.
Qed.

(** Such a create does succeed while the file is in order and rowids are
    left. *)
Lemma post_pair_created env lat lon x y db :
  ParseFloat lat = Some x ->
  ParseFloat lon = Some y ->
  fault env = None ->
  Z.max (sqlite_sequence db) (max_id (rows db)) < maxRowid ->
  (serve env ApiLocation (post_pair lat lon) db).1 = created_response.
Proof.
  intros Hx Hy Hf Hroom.
  rewrite serve_post, (Decode_post_pair _ _ _ _ Hx Hy). cbn.
  unfold DB_Create. rewrite Hf. cbn.
  destruct (maxRowid <=? _) eqn:Hfull; [|reflexivity].
  apply Z.leb_le in Hfull. lia.
Qed.

(** C1, as the code has it.  Post the pair [(x, y)] as the JSON object
    [{"Latitude": lat, "Longitude": lon}], where [lat] and [lon] are the
    literals that parse to [x] and [y].  If the create is answered 201
    and the backing file is readable on the next request, a GET of
    [/api/location/last] served right after it answers 200 with a record
    whose latitude is [x] and whose longitude is [y], save that a
    coordinate posted as negative zero comes back as zero. *)
Theorem post_then_get_last env env' lat lon x y db :
  ParseFloat lat = Some x ->
  ParseFloat lon = Some y ->
  StatusCode (serve env ApiLocation (post_pair lat lon) db).1 = 201 ->
  fault env' = None ->
  exists rec,
    (serve env' ApiLocationLast get_last
       (serve env ApiLocation (post_pair lat lon) db).2).1
    = location_response rec /\
    Latitude rec = (if is_negative_zero x then 0%float else x) /\
    Longitude rec = (if is_negative_zero y then 0%float else y).
Proof.
  intros Hx Hy Hcreated Hf.
  destruct (auto_id_is_latest env env' (post_pair lat lon) db
              (mkLocation 0 x y 0) eq_refl
              (Decode_post_pair _ _ _ _ Hx Hy) eq_refl Hcreated Hf)
    as (rec & Hget & _ & _ & Hlat & Hlon).
  exists rec. auto.
Qed.

(** *** What the operations do to the table *)

Lemma serve_rows env route r db :
  rows (serve env route r db).2 = rows db \/
  exists rec, rows (serve env route r db).2 = rows db ++ [rec].
Proof.
  destruct route.
  - rewrite serve_post.
    destruct (String.eqb _ "OPTIONS"); [now left|].
    destruct (negb _); [now left|].
    destruct (Decode _ _) as [err|loc]; [now left|].
    destruct (DB_Create env loc db) as [[v [e|]] db'] eqn:Hc; cbn.
    + left. now apply DB_Create_error in Hc.
    + right. exists (stored v). now apply DB_Create_ok in Hc.
  - rewrite serve_get.
    destruct (String.eqb _ "OPTIONS"); [now left|].
    destruct (negb _); [now left|].
    pose proof (DB_First_rows env zeroLocation db) as Hrows.
    destruct (DB_Order_id_DESC_First _ _ _) as [[v [[|e]|]] db'];
      left; exact Hrows.
Qed.

Lemma serve_all_rows reqs db :
  exists added,
    rows (serve_all reqs db).2 = rows db ++ added /\
    (length added <= length reqs)%nat.
Proof.
  revert db. induction reqs as [|[[env route] r] rest IH]; intros db.
  - exists []. cbn. rewrite app_nil_r. auto.
  - cbn. destruct (serve env route r db) as [resp db1] eqn:E.
    destruct (IH db1) as (added & Hrows & Hlen).
    destruct (serve_all rest db1) as [resps db2]. cbn in *.
    pose proof (serve_rows env route r db) as Hstep. rewrite E in Hstep.
    cbn in Hstep. destruct Hstep as [Hsame|[rec Hone]].
    + exists added. rewrite Hrows, Hsame. split; [reflexivity|lia].
    + exists (rec :: added). rewrite Hrows, Hone, <- app_assoc.
      split; [reflexivity|cbn; lia].
Qed.

(** C9.  Serving one request, on either route and with any method,
    leaves the rows of the table as they were or appends one row to
    them.  Hence after any sequence of requests the table is the old
    table followed by at most one new row per request: every record that
    was stored is still there, at its place, with the same id,
    latitude, longitude and creation time. *)
Theorem records_never_change :
  (forall env route r db,
     rows (serve env route r db).2 = rows db \/
     exists rec, rows (serve env route r db).2 = rows db ++ [rec]) /\
  (forall reqs db,
     exists added,
       rows (serve_all reqs db).2 = rows db ++ added /\
       (length added <= length reqs)%nat) /\
  (forall reqs db (i : nat) rec,
     rows db !! i = Some rec ->
     rows (serve_all reqs db).2 !! i = Some rec).
Proof.
  split; [exact serve_rows|]. split; [exact serve_all_rows|].
  intros reqs db i rec Hi.
  destruct (serve_all_rows reqs db) as (added & -> & _).
  now apply lookup_app_l_Some.
Qed.

(** The primary key survives every request: ids stay pairwise distinct. *)
Lemma serve_unique_ids env route r db :
  unique_ids db -> unique_ids (serve env route r db).2.
Proof.
  unfold unique_ids. intros Hnd. destruct route.
  - rewrite serve_post.
    destruct (String.eqb _ "OPTIONS"); [assumption|].
    destruct (negb _); [assumption|].
    destruct (Decode _ _) as [err|loc]; [assumption|].
    destruct (DB_Create env loc db) as [[v [e|]] db'] eqn:Hc; cbn.
    + apply DB_Create_error in Hc as [-> _]. assumption.
    + apply DB_Create_ok in Hc as (-> & _ & _ & _ & _ & Hid).
      rewrite map_app. cbn. apply NoDup_app. split; [assumption|].
      split; [|apply NoDup_singleton].
      intros id Hin Hv. apply list_elem_of_In in Hin.
      apply list_elem_of_singleton in Hv. subst id.
      destruct (ID loc =? 0).
      * apply in_map_iff in Hin as (r' & Heq & Hr').
        apply max_id_bound in Hr'. lia.
      * destruct Hid as (Heq & _ & Hfree). rewrite Heq in Hin. contradiction.
  - pose proof (serve_rows env ApiLocationLast r db) as Hrows.
    revert Hrows. rewrite serve_get.
    destruct (String.eqb _ "OPTIONS"); [auto|].
    destruct (negb _); [auto|].
    pose proof (DB_First_rows env zeroLocation db) as Hsame.
    destruct (DB_Order_id_DESC_First _ _ _) as [[v [[|e]|]] db'];
      cbn in *; rewrite Hsame; auto.
Qed.

(** C10, as the code has it.  A POST to [/api/location] whose body is a
    JSON object in which every member naming a field of [Location]
    holds [null] or a value of that field's type is accepted: unless
    storage fails (status 500) the answer is the 201 acknowledgment and
    one row is appended.  No member is required: a coordinate for which
    the object has no member is stored as [0]. *)
Theorem object_body_accepted env members db :
  well_typed members = true ->
  StatusCode (serve env ApiLocation (post_object members) db).1 <> 500 ->
  exists rec,
    (serve env ApiLocation (post_object members) db).1 = created_response /\
    rows (serve env ApiLocation (post_object members) db).2 = rows db ++ [rec] /\
    (absent FLatitude members = true -> Latitude rec = 0%float) /\
    (absent FLongitude members = true -> Longitude rec = 0%float).
Proof.
  intros Hwt. rewrite serve_post. cbn [post_object Method RequestBody Decode].
  destruct (object_well_typed members (mkDecodeState zeroLocation None) Hwt)
    as (d & -> & Hs & Hlat & Hlon).
  cbn in Hs, Hlat, Hlon. rewrite Hs. cbn.
  destruct (DB_Create env (target d) db) as [[v [e|]] db'] eqn:Hc; cbn;
    [intros Hne; now contradiction Hne|].
  intros _. apply DB_Create_ok in Hc as (-> & _ & Hvlat & Hvlon & _).
  exists (stored v). cbn [stored Latitude Longitude]. rewrite Hvlat, Hvlon.
  repeat split; [intros Ha; now rewrite (Hlat Ha)|
                 intros Ha; now rewrite (Hlon Ha)].
Qed.

End Facts.

(** ** The model at concrete requests *)

Lemma post_then_get_last_witness :
  ParseFloat (Parsers := sample) "13.7563" = Some 13.7563%float /\
  ParseFloat (Parsers := sample) "100.5018" = Some 100.5018%float /\
  StatusCode (serve (parsers := sample) calm ApiLocation bangkok emptyDatabase).1
  = 201 /\
  fault calm = None /\
  exists rec,
    (serve (parsers := sample) calm ApiLocationLast get_last
       (serve (parsers := sample) calm ApiLocation bangkok emptyDatabase).2).1
    = location_response rec /\
    Latitude rec = 13.7563%float /\ Longitude rec = 100.5018%float.
Proof.
  split; [reflexivity|]. split; [reflexivity|].
  split; [reflexivity|]. split; [reflexivity|].
  exact (post_then_get_last (parsers := sample) calm calm
           "13.7563" "100.5018" 13.7563%float 100.5018%float emptyDatabase
           eq_refl eq_refl eq_refl eq_refl).
Defined.

Lemma wrong_method_not_allowed_witness :
  Method bangkok <> "OPTIONS" /\
  Method bangkok <> allowed_method ApiLocationLast /\
  serve (parsers := sample) calm ApiLocationLast bangkok emptyDatabase
  = (error_response 405 "Method not allowed", emptyDatabase) /\
  queries (serve (parsers := sample) calm ApiLocationLast bangkok emptyDatabase).2
  = queries emptyDatabase.
Proof.
  split; [discriminate|]. split; [discriminate|].
  apply (wrong_method_not_allowed (parsers := sample)); discriminate.
Defined.

Lemma undecodable_body_rejected_witness :
  Method (mkRequest "POST" (Malformed "unexpected EOF")) = "POST" /\
  Decode (parsers := sample) (Malformed "unexpected EOF") zeroLocation
  = inl "unexpected EOF" /\
  serve (parsers := sample) calm ApiLocation
    (mkRequest "POST" (Malformed "unexpected EOF")) emptyDatabase
  = (error_response 400 "Invalid request payload: unexpected EOF",
     emptyDatabase).
Proof.
  split; [reflexivity|]. split; [reflexivity|].
  apply (proj2 (undecodable_body_rejected (parsers := sample)));
    reflexivity.
Defined.

Lemma created_acknowledged_witness :
  Method bangkok = "POST" /\
  Decode (parsers := sample) (RequestBody bangkok) zeroLocation
  = inr (mkLocation 0 13.7563%float 100.5018%float 0) /\
  (DB_Create calm (mkLocation 0 13.7563%float 100.5018%float 0)
     emptyDatabase).1.2 = None /\
  (serve (parsers := sample) calm ApiLocation bangkok emptyDatabase).1
  = mkResponse 201 cors_header
      [EncodeMap [("message", "Location saved successfully")]].
Proof.
  split; [reflexivity|]. split; [reflexivity|]. split; [reflexivity|].
  apply (created_acknowledged (parsers := sample) calm bangkok emptyDatabase
           (mkLocation 0 13.7563%float 100.5018%float 0)); reflexivity.
Defined.

Lemma records_never_change_witness :
  rows (mkDatabase [mkLocation 7 1%float 2%float 5] 7 []) !! 0%nat
  = Some (mkLocation 7 1%float 2%float 5) /\
  rows (serve_all (parsers := sample)
          [(calm, ApiLocation, bangkok); (calm, ApiLocationLast, get_last)]
          (mkDatabase [mkLocation 7 1%float 2%float 5] 7 [])).2 !! 0%nat
  = Some (mkLocation 7 1%float 2%float 5).
Proof.
  split; [reflexivity|].
  apply (proj2 (proj2 (records_never_change (parsers := sample))));
    reflexivity.
Defined.

Lemma object_body_accepted_witness :
  well_typed (parsers := sample) [] = true /\
  StatusCode
    (serve (parsers := sample) calm ApiLocation (post_object []) emptyDatabase).1
  <> 500 /\
  exists rec,
    (serve (parsers := sample) calm ApiLocation (post_object []) emptyDatabase).1
    = created_response /\
    rows (serve (parsers := sample) calm ApiLocation (post_object [])
            emptyDatabase).2 = rows emptyDatabase ++ [rec] /\
    (absent FLatitude [] = true -> Latitude rec = 0%float) /\
    (absent FLongitude [] = true -> Longitude rec = 0%float).
Proof.
  split; [reflexivity|]. split; [discriminate|].
  apply (object_body_accepted (parsers := sample) calm [] emptyDatabase);
    [reflexivity|discriminate].
Defined.

(** The scenario of the specification: a fetch on the empty table, a
    create, and a fetch again. *)
Example scenario :
  (serve_all (parsers := sample)
     [(calm, ApiLocationLast, get_last); (calm, ApiLocation, bangkok);
      (calm, ApiLocationLast, get_last)] emptyDatabase).1
  = [error_response 404 "No locations found";
     created_response;
     location_response
       (mkLocation 1 13.7563%float 100.5018%float 63900000000)].
Proof. reflexivity. Qed.

(** C1, as stated, fails.  The pair (-0.0, -0.0), posted on the empty
    table, is stored (201), and the fetch that follows returns latitude
    and longitude 0: the REAL columns do not keep the sign of a zero, so
    the record returned does not hold exactly the values posted. *)
Lemma negative_zero_returned_as_zero :
  ParseFloat (Parsers := sample) "-0.0" = Some (-0)%float /\
  (serve_all (parsers := sample)
     [(calm, ApiLocation, post_pair "-0.0" "-0.0");
      (calm, ApiLocationLast, get_last)] emptyDatabase).1
  = [created_response;
     location_response (mkLocation 1 0%float 0%float 63900000000)] /\
  0%float <> (-0)%float.
Proof.
  split; [reflexivity|]. split; [reflexivity|].
  intros H.
  apply (f_equal (fun z => PrimFloat.Leibniz.eqb z 0%float)) in H.
  vm_compute in H. discriminate H.
Qed.

(** C10, as stated, fails.  The body [{"Latitude": "north"}] is a
    syntactically valid JSON object and nothing is wrong with storage, yet
    the request is answered 400, not 201: the decoder refuses a string
    for a [float64] field, and the database is never asked. *)
Lemma ill_typed_object_rejected :
  fault calm = None /\
  serve (parsers := sample) calm ApiLocation
    (post_object [("Latitude", JString "north")]) emptyDatabase
  = (error_response 400
       "Invalid request payload: json: cannot unmarshal string into Go struct field Location.Latitude of type float64",
     emptyDatabase) /\
  StatusCode
    (serve (parsers := sample) calm ApiLocation
       (post_object [("Latitude", JString "north")]) emptyDatabase).1
  <> 201.
Proof. split; [reflexivity|]. split; [reflexivity|discriminate]. Qed.

(** *** Keys and times chosen by the client *)

(** C2, at a failing input.  On an empty table, two creates succeed, the
    first posting [ID] 10 and the second [ID] 5; the fetch that follows
    answers with the record of the first create (latitude 1), not with
    that of the second and most recent one (latitude 2). *)
Theorem get_last_returns_earlier_insert :
  (serve_all (parsers := sample) backdated emptyDatabase).1
  = [created_response; created_response;
     location_response (mkLocation 10 1%float 1%float 63900000000)].
Proof. reflexivity. Qed.

(** C3, at a failing input.  The same two creates both succeed, and the
    record created second has id 5, below the id 10 of the record created
    before it. *)
Theorem client_id_breaks_monotonicity :
  map StatusCode (serve_all (parsers := sample) backdated emptyDatabase).1
  = [201; 201; 200] /\
  map ID (rows (serve_all (parsers := sample) backdated emptyDatabase).2)
  = [10; 5].
Proof. split; reflexivity. Qed.

(** C4, at a failing input.  A create served at second 63900000000 on an
    empty table, whose body also carries [ID] 42 and a [Timestamp] of
    2024-01-01T00:00:00Z (second 63839664000), stores exactly those two
    values; the same reading posted without them is stored with id 1 and
    the time of the request. *)
Theorem client_id_and_time_are_stored :
  rows (serve (parsers := sample) calm ApiLocation
          (post_object [("ID", JNumber "42");
                        ("Latitude", JNumber "13.7563");
                        ("Longitude", JNumber "100.5018");
                        ("Timestamp", JString "2024-01-01T00:00:00Z")])
          emptyDatabase).2
  = [mkLocation 42 13.7563%float 100.5018%float 63839664000] /\
  rows (serve (parsers := sample) calm ApiLocation bangkok emptyDatabase).2
  = [mkLocation 1 13.7563%float 100.5018%float 63900000000].
Proof. split; reflexivity. Qed.

(** ** More about the backend *)

Lemma DB_Create_queries env v db :
  queries (DB_Create env v db).2 = queries db ++ [Insert] /\
  (DB_Create env v db).1.2 <> Some ErrRecordNotFound.
Proof.
  unfold DB_Create. destruct (fault env); [cbn; auto|].
  destruct (ID _ =? 0).
  - cbn [rows record_query sqlite_sequence].
    destruct (maxRowid <=? _); cbn; auto.
  - destruct (maxRowid <? _); [cbn; auto|].
    cbn [rows record_query]. destruct (has_id _ _); cbn; auto.
Qed.

Lemma DB_First_unchanged env dest db :
  rows (DB_Order_id_DESC_First env dest db).2 = rows db /\
  sqlite_sequence (DB_Order_id_DESC_First env dest db).2 = sqlite_sequence db /\
  queries (DB_Order_id_DESC_First env dest db).2 = queries db ++ [SelectLast].
Proof.
  unfold DB_Order_id_DESC_First.
  destruct (fault env); [cbn; auto|].
  destruct (last_by_id _); cbn; auto.
Qed.

Lemma app_one_neq {A} (l : list A) (x : A) : l <> l ++ [x].
Proof.
  intros Heq. apply (f_equal (@length A)) in Heq.
  rewrite length_app in Heq. cbn in Heq. lia.
Qed.

Section BackendFacts.

Context {parsers : Parsers}.

(** When the backing file fails during a create, the answer is 500 with
    the text "Failed to save location: " followed by the storage error,
    and neither the rows nor the id counter change. *)
Theorem create_storage_failure env r db newLocation e :
  Method r = "POST" ->
  Decode (RequestBody r) zeroLocation = inr newLocation ->
  fault env = Some e ->
  (serve env ApiLocation r db).1
  = error_response 500 ("Failed to save location: " +:+ e) /\
  rows (serve env ApiLocation r db).2 = rows db /\
  sqlite_sequence (serve env ApiLocation r db).2 = sqlite_sequence db.
Proof.
  intros Hm Hd Hf. rewrite serve_post, Hm, Hd. cbn.
  unfold DB_Create. rewrite Hf. cbn. auto.
Qed.

(** A create that names an id already in the table is answered 500 and
    stores nothing: a client cannot overwrite a stored record. *)
Theorem taken_id_rejected env r db newLocation :
  Method r = "POST" ->
  Decode (RequestBody r) zeroLocation = inr newLocation ->
  ID newLocation <> 0 ->
  In (ID newLocation) (map ID (rows db)) ->
  StatusCode (serve env ApiLocation r db).1 = 500 /\
  rows (serve env ApiLocation r db).2 = rows db.
Proof.
  intros Hm Hd Hnz Hin. rewrite serve_post, Hm, Hd. cbn.
  destruct (DB_Create env newLocation db) as [[v [e|]] db'] eqn:Hc; cbn.
  - split; [reflexivity|]. now apply DB_Create_error in Hc.
  - apply DB_Create_ok in Hc as (_ & _ & _ & _ & _ & Hid).
    apply Z.eqb_neq in Hnz. rewrite Hnz in Hid.
    destruct Hid as (_ & _ & Hfree). contradiction.
Qed.

(** When the backing file fails during a fetch, the answer is 500 with
    the text "Failed to retrieve last location: " followed by the storage
    error, whether the table is empty or not; the rows are untouched. *)
Theorem fetch_storage_failure env r db e :
  Method r = "GET" ->
  fault env = Some e ->
  (serve env ApiLocationLast r db).1
  = error_response 500 ("Failed to retrieve last location: " +:+ e) /\
  rows (serve env ApiLocationLast r db).2 = rows db.
Proof.
  intros Hm Hf. rewrite serve_get, Hm. cbn.
  unfold DB_Order_id_DESC_First. rewrite Hf. cbn. auto.
Qed.

(** A request is answered 201 exactly when it adds a row to the table. *)
Theorem created_iff_row_added env route r db :
  StatusCode (serve env route r db).1 = 201 <->
  exists rec, rows (serve env route r db).2 = rows db ++ [rec].
Proof.
  destruct route.
  - rewrite serve_post.
    destruct (String.eqb _ "OPTIONS");
      [split; [discriminate|intros [rec Hr]; now apply app_one_neq in Hr]|].
    destruct (negb _);
      [split; [discriminate|intros [rec Hr]; now apply app_one_neq in Hr]|].
    destruct (Decode _ _) as [err|loc];
      [split; [discriminate|intros [rec Hr]; now apply app_one_neq in Hr]|].
    destruct (DB_Create env loc db) as [[v [e|]] db'] eqn:Hc; cbn.
    + apply DB_Create_error in Hc as [Hrows _].
      split; [discriminate|]. intros [rec Hr]. rewrite Hrows in Hr.
      now apply app_one_neq in Hr.
    + apply DB_Create_ok in Hc as (Hrows & _). split; eauto.
  - split.
    + rewrite serve_get.
      destruct (String.eqb _ "OPTIONS"); [discriminate|].
      destruct (negb _); [discriminate|].
      destruct (DB_Order_id_DESC_First _ _ _) as [[v [[|e]|]] db'];
        discriminate.
    + intros [rec Hr]. exfalso.
      assert (Hsame : rows (serve env ApiLocationLast r db).2 = rows db).
      { rewrite serve_get.
        destruct (String.eqb _ "OPTIONS"); [reflexivity|].
        destruct (negb _); [reflexivity|].
        pose proof (DB_First_rows env zeroLocation db) as Hrows.
        destruct (DB_Order_id_DESC_First _ _ _) as [[v [[|e]|]] db'];
          exact Hrows. }
      rewrite Hsame in Hr. now apply app_one_neq in Hr.
Qed.

(** The statuses each route can answer with.  [/api/location] never
    answers 404 and answers 200 to OPTIONS only; [/api/location/last]
    never answers 201 or 400. *)
Theorem statuses_by_route env route r db :
  match route with
  | ApiLocation =>
      In (StatusCode (serve env route r db).1) [201; 400; 405; 500] \/
      (StatusCode (serve env route r db).1 = 200 /\ Method r = "OPTIONS")
  | ApiLocationLast =>
      In (StatusCode (serve env route r db).1) [200; 404; 405; 500]
  end.
Proof.
  destruct route.
  - rewrite serve_post.
    destruct (String.eqb _ "OPTIONS") eqn:Ho;
      [right; split; [reflexivity|now apply String.eqb_eq]|left].
    destruct (negb _); [cbn; tauto|].
    destruct (Decode _ _); [cbn; tauto|].
    destruct (DB_Create _ _ _) as [[v [e|]] db']; cbn; tauto.
  - rewrite serve_get.
    destruct (String.eqb _ "OPTIONS"); [cbn; tauto|].
    destruct (negb _); [cbn; tauto|].
    destruct (DB_Order_id_DESC_First _ _ _) as [[v [[|e]|]] db'];
      cbn; tauto.
Qed.

(** A request makes at most one call to the database: an insert, and then
    only for a POST to [/api/location]; or a select, and then only for a
    GET to [/api/location/last]. *)
Theorem one_statement_per_request env route r db :
  queries (serve env route r db).2 = queries db \/
  (route = ApiLocation /\ Method r = "POST" /\
   queries (serve env route r db).2 = queries db ++ [Insert]) \/
  (route = ApiLocationLast /\ Method r = "GET" /\
   queries (serve env route r db).2 = queries db ++ [SelectLast]).
Proof.
  destruct route.
  - rewrite serve_post.
    destruct (String.eqb _ "OPTIONS"); [now left|].
    destruct (String.eqb _ "POST") eqn:Hp; cbn; [|now left].
    destruct (Decode _ _) as [err|loc]; [now left|].
    right; left. apply String.eqb_eq in Hp.
    pose proof (DB_Create_queries env loc db) as [Hq _].
    destruct (DB_Create env loc db) as [[v [e|]] db']; cbn in *; auto.
  - rewrite serve_get.
    destruct (String.eqb _ "OPTIONS"); [now left|].
    destruct (String.eqb _ "GET") eqn:Hg; cbn; [|now left].
    right; right. apply String.eqb_eq in Hg.
    pose proof (DB_First_unchanged env zeroLocation db) as (_ & _ & Hq).
    destruct (DB_Order_id_DESC_First _ _ _) as [[v [[|e]|]] db'];
      cbn in *; auto.
Qed.

(** [/api/location/last] only reads.  Whatever the method, its answer
    does not depend on the request body, it leaves the rows and the id
    counter as they were, and asking again in the same environment gives
    the same answer. *)
Theorem fetch_route_read_only env r db :
  (forall r', Method r' = Method r ->
     (serve env ApiLocationLast r' db).1 = (serve env ApiLocationLast r db).1) /\
  rows (serve env ApiLocationLast r db).2 = rows db /\
  sqlite_sequence (serve env ApiLocationLast r db).2 = sqlite_sequence db /\
  (serve env ApiLocationLast r (serve env ApiLocationLast r db).2).1
  = (serve env ApiLocationLast r db).1.
Proof.
  assert (Hresp : forall db1 db2, rows db1 = rows db2 ->
            (serve env ApiLocationLast r db1).1
            = (serve env ApiLocationLast r db2).1).
  { intros db1 db2 Hrows. rewrite !serve_get.
    destruct (String.eqb _ "OPTIONS"); [reflexivity|].
    destruct (negb _); [reflexivity|].
    unfold DB_Order_id_DESC_First. cbn [rows record_query]. rewrite Hrows.
    destruct (fault env); [reflexivity|].
    destruct (last_by_id (rows db2)); reflexivity. }
  assert (Hdb : rows (serve env ApiLocationLast r db).2 = rows db /\
                sqlite_sequence (serve env ApiLocationLast r db).2
                = sqlite_sequence db).
  { rewrite serve_get.
    destruct (String.eqb _ "OPTIONS"); [auto|].
    destruct (negb _); [auto|].
    pose proof (DB_First_unchanged env zeroLocation db) as (Hr & Hs & _).
    destruct (DB_Order_id_DESC_First _ _ _) as [[v [[|e]|]] db'];
      cbn in *; auto. }
  destruct Hdb as [Hr Hs].
  split; [|split; [exact Hr|split; [exact Hs|now apply Hresp]]].
  intros r' Hm. rewrite !serve_get, Hm. reflexivity.
Qed.

(** *** The decoder *)

Lemma foldName_field_inj f g :
  foldName (field_name f) = foldName (field_name g) -> f = g.
Proof.
  destruct f, g; vm_compute; intros E; try reflexivity; discriminate E.
Qed.

(** Member names are matched to fields without regard to case: a member
    is stored into field [f] exactly when its name and the name of [f]
    fold to the same string, so [latitude] and [LATITUDE] are read as
    [Latitude]. *)
Theorem field_names_fold key f :
  lookup_field key = Some f <-> foldName key = foldName (field_name f).
Proof.
  assert (Hfind : forall P : Field -> bool,
            List.find P fields = Some f -> P f = true).
  { intros P HP. now apply find_some in HP. }
  split.
  - unfold lookup_field.
    destruct (List.find _ fields) as [g|] eqn:E.
    + intros [= ->]. apply Hfind in E. apply String.eqb_eq in E.
      now rewrite E.
    + intros E'. apply Hfind in E'. apply String.eqb_eq in E'. now symmetry.
  - intros Hfold. unfold lookup_field.
    destruct (List.find _ fields) as [g|] eqn:E.
    + apply find_some in E as [_ E]. apply String.eqb_eq in E.
      f_equal. apply foldName_field_inj. now rewrite E.
    + clear E.
      destruct (List.find _ fields) as [g|] eqn:E.
      * apply find_some in E as [_ E]. apply String.eqb_eq in E.
        f_equal. apply foldName_field_inj. congruence.
      * exfalso. eapply find_none with (x := f) in E.
        -- rewrite Hfold in E. rewrite String.eqb_refl in E. discriminate.
        -- destruct f; cbn; tauto.
Qed.

Lemma object_filter_known members d :
  object members d = object (List.filter known_member members) d.
Proof.
  revert d. induction members as [|[key v] rest IH]; intros d; [reflexivity|].
  cbn [object List.filter]. unfold known_member at 1. cbn [fst].
  destruct (lookup_field key) as [f|] eqn:Hf.
  - rewrite bool_decide_eq_true_2 by eauto. cbn [object]. rewrite Hf.
    destruct (store_field f v d); [reflexivity|apply IH].
  - rewrite bool_decide_eq_false_2 by (intros [? ?]; discriminate). apply IH.
Qed.

(** Members whose name matches no field of [Location] are skipped: a
    create with such members in its body is served exactly as the same
    create without them. *)
Theorem unknown_members_ignored env members db :
  serve env ApiLocation (post_object members) db
  = serve env ApiLocation (post_object (List.filter known_member members)) db.
Proof.
  rewrite !serve_post. cbn [post_object Method RequestBody Decode].
  rewrite (object_filter_known members). reflexivity.
Qed.

(** A body that is JSON but not an object.  [null] is served exactly as
    the empty object is, so it too creates a record with both
    coordinates 0; a boolean, a number, a string or an array is answered
    400 and the database is not touched. *)
Theorem non_object_body env v db :
  match v with
  | JNull =>
      serve env ApiLocation (mkRequest "POST" (Parsed JNull)) db
      = serve env ApiLocation (post_object []) db
  | JObject _ => True
  | _ =>
      StatusCode (serve env ApiLocation (mkRequest "POST" (Parsed v)) db).1
      = 400 /\
      (serve env ApiLocation (mkRequest "POST" (Parsed v)) db).2 = db
  end.
Proof.
  destruct v; try exact I; rewrite ?serve_post; cbn; auto.
Qed.

(** *** Ids *)

Lemma serve_all_unique_ids reqs db :
  unique_ids db -> unique_ids (serve_all reqs db).2.
Proof.
  revert db. induction reqs as [|[[env route] r] rest IH]; intros db Hu;
    [exact Hu|].
  cbn. pose proof (serve_unique_ids env route r db Hu) as Hstep.
  destruct (serve env route r db) as [resp db1]. cbn in Hstep.
  specialize (IH db1 Hstep).
  destruct (serve_all rest db1) as [resps db2]. exact IH.
Qed.

(** Whatever requests are served, starting from the empty table, no two
    rows ever share an id. *)
Theorem ids_always_unique reqs :
  NoDup (map ID (rows (serve_all reqs emptyDatabase).2)).
Proof. apply serve_all_unique_ids. constructor. Qed.

(** A create whose decoded id is zero, answered 201, stores a row whose id
    is above every id in the table, with the decoded coordinates (a
    negative zero stored as zero); the fetch served next (backing file
    readable) answers with that row. *)
Theorem database_assigned_id_is_latest env env' r db newLocation :
  Method r = "POST" ->
  Decode (RequestBody r) zeroLocation = inr newLocation ->
  ID newLocation = 0 ->
  StatusCode (serve env ApiLocation r db).1 = 201 ->
  fault env' = None ->
  exists rec,
    (serve env' ApiLocationLast get_last (serve env ApiLocation r db).2).1
    = location_response rec /\
    rows (serve env ApiLocation r db).2 = rows db ++ [rec] /\
    (forall old, In old (rows db) -> ID old < ID rec) /\
    Latitude rec = REAL (Latitude newLocation) /\
    Longitude rec = REAL (Longitude newLocation).
Proof. apply auto_id_is_latest. Qed.

Lemma max_id_nonneg rs : 0 <= max_id rs.
Proof. induction rs as [|r rs IH]; cbn; lia. Qed.

Lemma max_id_app rs r :
  max_id (rs ++ [r]) = Z.max (max_id rs) (Z.max (ID r) 0).
Proof. induction rs as [|r' rs IH]; cbn; [|rewrite IH]; lia. Qed.

Lemma post_pair_step env lat lon db :
  fault env = None ->
  is_Some (ParseFloat lat) -> is_Some (ParseFloat lon) ->
  largest_rowid db < maxRowid ->
  exists db1,
    serve env ApiLocation (post_pair lat lon) db = (created_response, db1) /\
    map ID (rows db1) = map ID (rows db) ++ [largest_rowid db + 1] /\
    largest_rowid db1 = largest_rowid db + 1.
Proof.
  intros Hf [x Hx] [y Hy] Hroom.
  rewrite serve_post, (Decode_post_pair _ _ _ _ Hx Hy). cbn.
  unfold DB_Create. rewrite Hf. cbn.
  fold (largest_rowid db).
  destruct (maxRowid <=? largest_rowid db) eqn:Hfull;
    [apply Z.leb_le in Hfull; lia|].
  eexists. split; [reflexivity|]. cbn. split.
  - rewrite map_app. reflexivity.
  - unfold largest_rowid in *. cbn. rewrite max_id_app. cbn.
    pose proof (max_id_nonneg (rows db)). lia.
Qed.

(** Readings posted one after the other, without an id of their own and
    with the backing file in order, are all answered 201 and get
    consecutive ids, counting up from the largest rowid the table has
    held; on the empty table they are 1, 2, 3, ... *)
Theorem ids_count_up readings db :
  Forall (fun '(env, lat, lon) =>
            fault env = None /\
            is_Some (ParseFloat lat) /\ is_Some (ParseFloat lon)) readings ->
  largest_rowid db + Z.of_nat (length readings) <= maxRowid ->
  map StatusCode (serve_all (pair_posts readings) db).1
  = repeat 201 (length readings) /\
  map ID (rows (serve_all (pair_posts readings) db).2)
  = map ID (rows db)
    ++ map (fun i => largest_rowid db + Z.of_nat i)
         (seq 1 (length readings)).
Proof.
  revert db. induction readings as [|[[env lat] lon] rest IH];
    intros db Hall Hroom.
  - cbn. rewrite app_nil_r. auto.
  - apply Forall_cons_1 in Hall as [(Hf & Hlat & Hlon) Hall].
    cbn [length] in Hroom.
    destruct (post_pair_step env lat lon db Hf Hlat Hlon ltac:(lia))
      as (db1 & Hserve & Hids & Htop).
    specialize (IH db1 Hall ltac:(lia)).
    cbn [pair_posts map serve_all]. fold (pair_posts rest). rewrite Hserve.
    destruct (serve_all (pair_posts rest) db1) as [resps db2].
    cbn in IH. destruct IH as [IHs IHr]. cbn [fst snd map length repeat].
    split; [now rewrite IHs|].
    rewrite IHr, Hids, Htop, <- app_assoc. f_equal.
    cbn [seq map app]. apply f_equal2; [lia|].
    rewrite <- (seq_shift (length rest) 1), List.map_map.
    apply map_ext. intros i. lia.
Qed.

Lemma post_pair_served env lat lon x y db :
  fault env = None ->
  ParseFloat lat = Some x -> ParseFloat lon = Some y ->
  largest_rowid db < maxRowid ->
  serve env ApiLocation (post_pair lat lon) db
  = (created_response,
     mkDatabase
       (rows db
        ++ [mkLocation (largest_rowid db + 1) (REAL x) (REAL y) (now env)])
       (Z.max (sqlite_sequence db) (largest_rowid db + 1))
       (queries db ++ [Insert])).
Proof.
  intros Hf Hx Hy Hroom.
  rewrite serve_post, (Decode_post_pair _ _ _ _ Hx Hy). cbn.
  unfold DB_Create. rewrite Hf. cbn.
  fold (largest_rowid db).
  destruct (maxRowid <=? largest_rowid db) eqn:Hfull;
    [apply Z.leb_le in Hfull; lia|reflexivity].
Qed.

Lemma serve_all_app reqs reqs' db :
  serve_all (reqs ++ reqs') db
  = ((serve_all reqs db).1 ++ (serve_all reqs' (serve_all reqs db).2).1,
     (serve_all reqs' (serve_all reqs db).2).2).
Proof.
  revert db. induction reqs as [|[[env route] r] rest IH]; intros db.
  - cbn. now destruct (serve_all reqs' db).
  - cbn. destruct (serve env route r db) as [resp db1].
    rewrite IH. destruct (serve_all rest db1) as [resps db2]. cbn.
    reflexivity.
Qed.

Lemma pair_posts_largest readings db :
  Forall (fun '(env, lat, lon) =>
            fault env = None /\
            is_Some (ParseFloat lat) /\ is_Some (ParseFloat lon)) readings ->
  largest_rowid db + Z.of_nat (length readings) <= maxRowid ->
  largest_rowid (serve_all (pair_posts readings) db).2
  = largest_rowid db + Z.of_nat (length readings).
Proof.
  revert db. induction readings as [|[[env lat] lon] rest IH];
    intros db Hall Hroom.
  - cbn. lia.
  - apply Forall_cons_1 in Hall as [(Hf & Hlat & Hlon) Hall].
    cbn [length] in Hroom.
    destruct (post_pair_step env lat lon db Hf Hlat Hlon ltac:(lia))
      as (db1 & Hserve & _ & Htop).
    specialize (IH db1 Hall ltac:(lia)).
    cbn [pair_posts map serve_all]. fold (pair_posts rest). rewrite Hserve.
    destruct (serve_all (pair_posts rest) db1) as [resps db2].
    cbn in *. lia.
Qed.

(** After any run of readings posted without an id of their own, the
    backend's file being in order, a fetch answers with the reading
    posted last: its coordinates (a negative zero stored as zero), the
    time of its request, and an id that counts the readings. *)
Theorem fetch_after_posts readings env lat lon x y env' db :
  Forall (fun '(env, lat, lon) =>
            fault env = None /\
            is_Some (ParseFloat lat) /\ is_Some (ParseFloat lon)) readings ->
  fault env = None ->
  ParseFloat lat = Some x -> ParseFloat lon = Some y ->
  largest_rowid db + Z.of_nat (length readings) < maxRowid ->
  fault env' = None ->
  (serve env' ApiLocationLast get_last
     (serve_all (pair_posts (readings ++ [(env, lat, lon)])) db).2).1
  = location_response
      (mkLocation (largest_rowid db + Z.of_nat (length readings) + 1)
         (REAL x) (REAL y) (now env)).
Proof.
  intros Hall Hf Hx Hy Hroom Hf'.
  unfold pair_posts. rewrite map_app. fold (pair_posts readings).
  rewrite serve_all_app. cbn [snd map serve_all].
  pose proof (pair_posts_largest readings db Hall ltac:(lia)) as Htop.
  set (dbn := (serve_all (pair_posts readings) db).2) in *.
  rewrite (post_pair_served env lat lon x y dbn Hf Hx Hy) by lia.
  cbn. rewrite serve_get. cbn. unfold DB_Order_id_DESC_First.
  rewrite Hf'. cbn [rows record_query].
  rewrite last_by_id_app; [now rewrite Htop|].
  cbn. unfold largest_rowid. lia.
Qed.

(** *** Content types *)

Ltac low_status :=
  unfold preflight_response, created_response, location_response,
    StatusOK, StatusCreated;
  cbn; intros ?; lia.

(** An answer with status 400 or above is plain text: it carries
    [Content-Type: text/plain; charset=utf-8] and
    [X-Content-Type-Options: nosniff] and its body is one line of text.
    An answer that carries a location is sent with status 200 and
    [Content-Type: application/json]. *)
Theorem content_type_by_outcome env route r db :
  (400 <= StatusCode (serve env route r db).1 ->
   Headers (serve env route r db).1 !! "Content-Type"
   = Some ["text/plain; charset=utf-8"] /\
   Headers (serve env route r db).1 !! "X-Content-Type-Options"
   = Some ["nosniff"] /\
   exists msg, ResponseBody (serve env route r db).1 = [Text (msg +:+ newline)]) /\
  (forall l, ResponseBody (serve env route r db).1 = [EncodeLocation l] ->
   StatusCode (serve env route r db).1 = 200 /\
   Headers (serve env route r db).1 !! "Content-Type"
   = Some ["application/json"]).
Proof.
  assert (Herr : forall code msg,
            Headers (error_response code msg) !! "Content-Type"
            = Some ["text/plain; charset=utf-8"] /\
            Headers (error_response code msg) !! "X-Content-Type-Options"
            = Some ["nosniff"] /\
            exists m, ResponseBody (error_response code msg)
                      = [Text (m +:+ newline)]).
  { intros code msg. split; [vm_compute; reflexivity|].
    split; [vm_compute; reflexivity|]. exists msg. reflexivity. }
  assert (Hloc : forall l,
            Headers (location_response l) !! "Content-Type"
            = Some ["application/json"]).
  { intros l. vm_compute. reflexivity. }
  destruct route; [rewrite serve_post|rewrite serve_get].
  - destruct (String.eqb _ "OPTIONS");
      [split; [low_status|discriminate]|].
    destruct (negb _); [split; [intros _; apply Herr|discriminate]|].
    destruct (Decode _ _); [split; [intros _; apply Herr|discriminate]|].
    destruct (DB_Create _ _ _) as [[v [e|]] db'];
      [split; [intros _; apply Herr|discriminate]|].
    split; [low_status|discriminate].
  - destruct (String.eqb _ "OPTIONS");
      [split; [low_status|discriminate]|].
    destruct (negb _); [split; [intros _; apply Herr|discriminate]|].
    destruct (DB_Order_id_DESC_First _ _ _) as [[v [[|e]|]] db'];
      try (split; [intros _; apply Herr|discriminate]).
    split; [low_status|]. intros l _. split; [reflexivity|apply Hloc].
Qed.

End BackendFacts.

(** ** The client against the backend *)

Lemma append_empty_r (s : string) : s +:+ "" = s.
Proof.
  induction s as [|c s IH]; [reflexivity|].
  change (String c (s +:+ "") = String c s). now f_equal.
Qed.

Section AppFacts.

Context {parsers : Parsers} {browser : Browser}.

(** What the page reads out of an error answer of the backend. *)
Lemma http_error_of_error_response code msg :
  App.http_error (error_response code msg)
  = "HTTP error! Status: " +:+ App.status_text code +:+ " - "
      +:+ msg +:+ newline.
Proof.
  unfold App.http_error, App.text. cbn [error_response ResponseBody StatusCode fold_right].
  now rewrite append_empty_r.
Qed.

(** When the component mounts and the backend can read its file, the page
    shows no error; it shows no location if the table is empty, and
    otherwise a row of the table that no other row exceeds in id. *)
Theorem mount_shows_latest env db :
  fault env = None ->
  (rows db = [] -> (App.mount (network := online) env db).1 = App.initial) /\
  (rows db <> [] ->
   exists m,
     (App.mount (network := online) env db).1
     = App.mkState "No location yet." (Some (EncodeLocation m)) None /\
     In m (rows db) /\ forall r, In r (rows db) -> ID r <= ID m).
Proof.
  intros Hf. unfold App.mount, App.fetchLastSavedLocation. cbn [fetch online].
  rewrite serve_get. cbn. unfold DB_Order_id_DESC_First.
  rewrite Hf. cbn [rows record_query].
  destruct (last_by_id (rows db)) as [m|] eqn:E; split; intros Hrows.
  - rewrite Hrows in E. discriminate.
  - exists m. split; [reflexivity|]. now apply last_by_id_Some.
  - reflexivity.
  - apply last_by_id_None in E. contradiction.
Qed.

(** When the backend cannot read its file, a refresh keeps whatever
    location the page was showing and reports the failure, quoting the
    status 500 and the backend's own message. *)
Theorem refresh_reports_storage_failure env st db e :
  fault env = Some e ->
  (App.fetchLastSavedLocation (network := online) env st db).1
  = App.mkState (App.currentLocation st) (App.lastSavedLocation st)
      (Some ("Failed to fetch last location from backend: HTTP error! Status: 500 - Failed to retrieve last location: "
               +:+ e +:+ newline)).
Proof.
  intros Hf. unfold App.fetchLastSavedLocation. cbn [fetch online].
  rewrite serve_get. cbn. unfold DB_Order_id_DESC_First. rewrite Hf.
  cbn -[App.http_error error_response].
  rewrite http_error_of_error_response. reflexivity.
Qed.

(** Sharing a position end to end.  If the coordinates survive the trip
    through JSON and the backend's file is in order, then after
    [getGeoLocation] the table has one more row, holding the coordinates
    the browser reported (as the REAL columns hold them), the time of the
    request and the next id; the page shows exactly that row, and no
    error, whatever it showed before. *)
Theorem share_shows_posted_location env env' x y lat lon st db :
  JSON_number x = JNumber lat -> ParseFloat lat = Some x ->
  JSON_number y = JNumber lon -> ParseFloat lon = Some y ->
  fault env = None -> fault env' = None ->
  largest_rowid db < maxRowid ->
  (App.getGeoLocation (network := online) (Position x y) env env' st db).1
  = App.mkState ("Lat: " +:+ toFixed6 x +:+ ", Lon: " +:+ toFixed6 y)
      (Some (EncodeLocation
               (mkLocation (largest_rowid db + 1) (REAL x) (REAL y)
                  (now env))))
      None /\
  rows (App.getGeoLocation (network := online) (Position x y) env env' st db).2
  = rows db ++ [mkLocation (largest_rowid db + 1) (REAL x) (REAL y) (now env)].
Proof.
  intros Hjx Hx Hjy Hy Hf Hf' Hroom.
  unfold App.getGeoLocation, App.sendLocationToBackend.
  rewrite Hjx, Hjy. cbn [fetch online].
  change (mkRequest "POST" _) with (post_pair lat lon).
  rewrite (post_pair_served env lat lon x y db Hf Hx Hy Hroom). cbn.
  unfold App.fetchLastSavedLocation. cbn [fetch online].
  rewrite serve_get. cbn. unfold DB_Order_id_DESC_First.
  rewrite Hf'. cbn [rows record_query].
  rewrite last_by_id_app; [cbn; auto|].
  cbn. unfold largest_rowid. lia.
Qed.

(** Sharing a position while the backend cannot write its file.  The page
    reports the failure, quoting the status 500 and the backend's
    message; it keeps the location it was showing and does not ask for a
    refresh: the insert is the only call the database receives, and it
    stores nothing. *)
Theorem share_reports_storage_failure env env' x y lat lon st db e :
  JSON_number x = JNumber lat -> ParseFloat lat = Some x ->
  JSON_number y = JNumber lon -> ParseFloat lon = Some y ->
  fault env = Some e ->
  (App.getGeoLocation (network := online) (Position x y) env env' st db).1
  = App.mkState ("Lat: " +:+ toFixed6 x +:+ ", Lon: " +:+ toFixed6 y)
      (App.lastSavedLocation st)
      (Some ("Failed to send location to backend: HTTP error! Status: 500 - Failed to save location: "
               +:+ e +:+ newline)) /\
  rows (App.getGeoLocation (network := online) (Position x y) env env' st db).2
  = rows db /\
  queries (App.getGeoLocation (network := online) (Position x y) env env' st db).2
  = queries db ++ [Insert].
Proof.
  intros Hjx Hx Hjy Hy Hf.
  unfold App.getGeoLocation, App.sendLocationToBackend.
  rewrite Hjx, Hjy. cbn [fetch online].
  change (mkRequest "POST" _) with (post_pair lat lon).
  rewrite serve_post, (Decode_post_pair _ _ _ _ Hx Hy).
  cbn [post_pair Method String.eqb Ascii.eqb Bool.eqb negb].
  unfold DB_Create. rewrite Hf.
  cbn -[App.http_error error_response].
  rewrite http_error_of_error_response. auto.
Qed.

End AppFacts.

(** ** The further facts at concrete requests *)

Lemma get_last_max_id_witness :
  fault calm = None /\
  (rows emptyDatabase = [] ->
   (serve (parsers := sample) calm ApiLocationLast get_last emptyDatabase).1
   = error_response 404 "No locations found").
Proof.
  split; [reflexivity|].
  apply (get_last_max_id (parsers := sample) calm emptyDatabase eq_refl).
Defined.

Lemma create_storage_failure_witness :
  Method bangkok = "POST" /\
  Decode (parsers := sample) (RequestBody bangkok) zeroLocation
  = inr (mkLocation 0 13.7563%float 100.5018%float 0) /\
  fault stormy = Some "disk I/O error" /\
  (serve (parsers := sample) stormy ApiLocation bangkok emptyDatabase).1
  = error_response 500 "Failed to save location: disk I/O error" /\
  rows (serve (parsers := sample) stormy ApiLocation bangkok emptyDatabase).2
  = [] /\
  sqlite_sequence
    (serve (parsers := sample) stormy ApiLocation bangkok emptyDatabase).2 = 0.
Proof.
  split; [reflexivity|]. split; [reflexivity|]. split; [reflexivity|].
  apply (create_storage_failure (parsers := sample) stormy bangkok
           emptyDatabase (mkLocation 0 13.7563%float 100.5018%float 0)
           "disk I/O error"); reflexivity.
Defined.

Lemma taken_id_rejected_witness :
  Method (post_object [("ID", JNumber "7")]) = "POST" /\
  Decode (parsers := sample)
    (RequestBody (post_object [("ID", JNumber "7")])) zeroLocation
  = inr (mkLocation 7 0%float 0%float 0) /\
  ID (mkLocation 7 0%float 0%float 0) <> 0 /\
  In 7 (map ID (rows (mkDatabase [mkLocation 7 1%float 2%float 5] 7 []))) /\
  StatusCode
    (serve (parsers := sample) calm ApiLocation
       (post_object [("ID", JNumber "7")])
       (mkDatabase [mkLocation 7 1%float 2%float 5] 7 [])).1 = 500 /\
  rows
    (serve (parsers := sample) calm ApiLocation
       (post_object [("ID", JNumber "7")])
       (mkDatabase [mkLocation 7 1%float 2%float 5] 7 [])).2
  = [mkLocation 7 1%float 2%float 5].
Proof.
  split; [reflexivity|]. split; [reflexivity|]. split; [discriminate|].
  split; [now left|].
  apply (taken_id_rejected (parsers := sample) calm
           (post_object [("ID", JNumber "7")])
           (mkDatabase [mkLocation 7 1%float 2%float 5] 7 [])
           (mkLocation 7 0%float 0%float 0));
    [reflexivity|reflexivity|discriminate|now left].
Defined.

Lemma fetch_storage_failure_witness :
  Method get_last = "GET" /\
  fault stormy = Some "disk I/O error" /\
  (serve (parsers := sample) stormy ApiLocationLast get_last emptyDatabase).1
  = error_response 500 "Failed to retrieve last location: disk I/O error" /\
  rows (serve (parsers := sample) stormy ApiLocationLast get_last
          emptyDatabase).2 = [].
Proof.
  split; [reflexivity|]. split; [reflexivity|].
  apply (fetch_storage_failure (parsers := sample) stormy get_last
           emptyDatabase "disk I/O error"); reflexivity.
Defined.

Lemma database_assigned_id_is_latest_witness :
  Method bangkok = "POST" /\
  Decode (parsers := sample) (RequestBody bangkok) zeroLocation
  = inr (mkLocation 0 13.7563%float 100.5018%float 0) /\
  StatusCode
    (serve (parsers := sample) calm ApiLocation bangkok
       (mkDatabase [mkLocation 7 1%float 2%float 5] 7 [])).1 = 201 /\
  fault calm = None /\
  exists rec,
    (serve (parsers := sample) calm ApiLocationLast get_last
       (serve (parsers := sample) calm ApiLocation bangkok
          (mkDatabase [mkLocation 7 1%float 2%float 5] 7 [])).2).1
    = location_response rec /\
    rows (serve (parsers := sample) calm ApiLocation bangkok
            (mkDatabase [mkLocation 7 1%float 2%float 5] 7 [])).2
    = [mkLocation 7 1%float 2%float 5] ++ [rec] /\
    (forall old, In old [mkLocation 7 1%float 2%float 5] -> ID old < ID rec) /\
    Latitude rec = 13.7563%float /\ Longitude rec = 100.5018%float.
Proof.
  split; [reflexivity|]. split; [reflexivity|]. split; [reflexivity|].
  split; [reflexivity|].
  apply (database_assigned_id_is_latest (parsers := sample) calm calm bangkok
           (mkDatabase [mkLocation 7 1%float 2%float 5] 7 [])
           (mkLocation 0 13.7563%float 100.5018%float 0)); reflexivity.
Defined.

Lemma ids_count_up_witness :
  Forall (fun '(env, lat, lon) =>
            fault env = None /\
            is_Some (ParseFloat (Parsers := sample) lat) /\
            is_Some (ParseFloat (Parsers := sample) lon))
    [(calm, "1", "2"); (calm, "13.7563", "100.5018")] /\
  largest_rowid emptyDatabase + Z.of_nat 2 <= maxRowid /\
  map StatusCode
    (serve_all (parsers := sample)
       (pair_posts [(calm, "1", "2"); (calm, "13.7563", "100.5018")])
       emptyDatabase).1 = [201; 201] /\
  map ID
    (rows (serve_all (parsers := sample)
             (pair_posts [(calm, "1", "2"); (calm, "13.7563", "100.5018")])
             emptyDatabase).2) = [1; 2].
Proof.
  assert (Hall : Forall (fun '(env, lat, lon) =>
            fault env = None /\
            is_Some (ParseFloat (Parsers := sample) lat) /\
            is_Some (ParseFloat (Parsers := sample) lon))
    [(calm, "1", "2"); (calm, "13.7563", "100.5018")]).
  { repeat constructor; eexists; reflexivity. }
  assert (Hroom : largest_rowid emptyDatabase + Z.of_nat 2 <= maxRowid).
  { vm_compute. discriminate. }
  split; [exact Hall|]. split; [exact Hroom|].
  exact (ids_count_up (parsers := sample)
           [(calm, "1", "2"); (calm, "13.7563", "100.5018")] emptyDatabase
           Hall Hroom).
Defined.

Lemma mount_shows_latest_witness :
  fault calm = None /\
  (rows emptyDatabase = [] ->
   (App.mount (browser := sampleBrowser) (network := online (parsers := sample))
      calm emptyDatabase).1 = App.initial).
Proof.
  split; [reflexivity|].
  apply (mount_shows_latest (parsers := sample) (browser := sampleBrowser)
           calm emptyDatabase eq_refl).
Defined.

Lemma refresh_reports_storage_failure_witness :
  fault stormy = Some "disk I/O error" /\
  App.error
    (App.fetchLastSavedLocation (browser := sampleBrowser)
       (network := online (parsers := sample)) stormy App.initial
       emptyDatabase).1
  = Some ("Failed to fetch last location from backend: HTTP error! Status: 500 - Failed to retrieve last location: disk I/O error"
            +:+ newline).
Proof.
  split; [reflexivity|].
  rewrite (refresh_reports_storage_failure (parsers := sample)
             (browser := sampleBrowser) stormy App.initial emptyDatabase
             "disk I/O error" eq_refl).
  reflexivity.
Defined.

Lemma share_shows_posted_location_witness :
  JSON_number (Browser := sampleBrowser) 13.7563%float = JNumber "13.7563" /\
  ParseFloat (Parsers := sample) "13.7563" = Some 13.7563%float /\
  JSON_number (Browser := sampleBrowser) 100.5018%float = JNumber "100.5018" /\
  ParseFloat (Parsers := sample) "100.5018" = Some 100.5018%float /\
  fault calm = None /\
  largest_rowid emptyDatabase < maxRowid /\
  (App.getGeoLocation (browser := sampleBrowser)
     (network := online (parsers := sample))
     (Position 13.7563%float 100.5018%float) calm calm App.initial
     emptyDatabase).1
  = App.mkState "Lat: 13.756300, Lon: 100.501800"
      (Some (EncodeLocation
               (mkLocation 1 13.7563%float 100.5018%float 63900000000)))
      None /\
  rows (App.getGeoLocation (browser := sampleBrowser)
          (network := online (parsers := sample))
          (Position 13.7563%float 100.5018%float) calm calm App.initial
          emptyDatabase).2
  = [mkLocation 1 13.7563%float 100.5018%float 63900000000].
Proof.
  split; [reflexivity|]. split; [reflexivity|]. split; [reflexivity|].
  split; [reflexivity|]. split; [reflexivity|]. split; [reflexivity|].
  apply (share_shows_posted_location (parsers := sample)
           (browser := sampleBrowser) calm calm
           13.7563%float 100.5018%float "13.7563" "100.5018"
           App.initial emptyDatabase); reflexivity.
Defined.

Lemma fetch_after_posts_witness :
  Forall (fun '(env, lat, lon) =>
            fault env = None /\
            is_Some (ParseFloat (Parsers := sample) lat) /\
            is_Some (ParseFloat (Parsers := sample) lon))
    [(calm, "1", "2")] /\
  fault calm = None /\
  ParseFloat (Parsers := sample) "13.7563" = Some 13.7563%float /\
  ParseFloat (Parsers := sample) "100.5018" = Some 100.5018%float /\
  largest_rowid emptyDatabase + Z.of_nat 1 < maxRowid /\
  (serve (parsers := sample) calm ApiLocationLast get_last
     (serve_all (parsers := sample)
        (pair_posts ([(calm, "1", "2")] ++ [(calm, "13.7563", "100.5018")]))
        emptyDatabase).2).1
  = location_response
      (mkLocation 2 13.7563%float 100.5018%float 63900000000).
Proof.
  assert (Hall : Forall (fun '(env, lat, lon) =>
            fault env = None /\
            is_Some (ParseFloat (Parsers := sample) lat) /\
            is_Some (ParseFloat (Parsers := sample) lon))
    [(calm, "1", "2")]).
  { repeat constructor; eexists; reflexivity. }
  split; [exact Hall|]. split; [reflexivity|]. split; [reflexivity|].
  split; [reflexivity|]. split; [reflexivity|].
  exact (fetch_after_posts (parsers := sample) [(calm, "1", "2")] calm
           "13.7563" "100.5018" 13.7563%float 100.5018%float calm
           emptyDatabase Hall eq_refl eq_refl eq_refl eq_refl eq_refl).
Defined.

Lemma share_reports_storage_failure_witness :
  JSON_number (Browser := sampleBrowser) 13.7563%float = JNumber "13.7563" /\
  ParseFloat (Parsers := sample) "13.7563" = Some 13.7563%float /\
  JSON_number (Browser := sampleBrowser) 100.5018%float = JNumber "100.5018" /\
  ParseFloat (Parsers := sample) "100.5018" = Some 100.5018%float /\
  fault stormy = Some "disk I/O error" /\
  rows (App.getGeoLocation (browser := sampleBrowser)
          (network := online (parsers := sample))
          (Position 13.7563%float 100.5018%float) stormy calm App.initial
          emptyDatabase).2 = [] /\
  queries (App.getGeoLocation (browser := sampleBrowser)
             (network := online (parsers := sample))
             (Position 13.7563%float 100.5018%float) stormy calm App.initial
             emptyDatabase).2 = [Insert].
Proof.
  split; [reflexivity|]. split; [reflexivity|]. split; [reflexivity|].
  split; [reflexivity|]. split; [reflexivity|].
  apply (share_reports_storage_failure (parsers := sample)
           (browser := sampleBrowser) stormy calm
           13.7563%float 100.5018%float "13.7563" "100.5018"
           App.initial emptyDatabase "disk I/O error"); reflexivity.
Defined.
